(** * Stock price dashboard: the script of [stock_dashboard.py] and its properties

    The dashboard is a Streamlit script: every interaction re-executes it from
    top to bottom with the current widget values.  One execution is modelled
    as a function of the widget values, the wall clock and the market-data
    provider; it yields the ordered list of what the script did (provider
    calls and elements handed to the page) and how it ended (completed, or an
    uncaught Python exception).

    Python values are modelled as they are used here: [str] as ASCII strings,
    [int] as [Z], [float] as IEEE-754 binary64 through the standard library's
    [spec_float] operations, [dict] with string keys as [gmap string _]. *)

From Stdlib Require Import ZArith String Ascii List Lia DecimalString DecimalN.
From Stdlib Require Import Floats.SpecFloat.
From stdpp Require Import base option list gmap strings.
Import ListNotations.

Local Open Scope string_scope.
Local Open Scope Z_scope.

(** ** Python fragments used by the script *)

Module Py.

(** Exceptions that the expressions of the page body can raise; nothing
    catches them there. *)
Inductive exn :=
| ZeroDivisionError
| OverflowError
| TypeError
| ValueError.

Inductive result (A : Type) :=
| Ok (a : A)
| Raise (e : exn).
Arguments Ok {A} a.
Arguments Raise {A} e.

Definition rbind {A B} (r : result A) (k : A -> result B) : result B :=
  match r with
  | Ok a => k a
  | Raise e => Raise e
  end.

Notation "x <-! r ; k" := (rbind r (fun x => k))
  (at level 100, r at next level, right associativity, only parsing).

(** The values a profile dictionary holds: [None], numbers and strings.
    (Booleans and nested containers do not occur under the keys the script
    reads.) *)
Inductive value :=
| VNone
| VInt (z : Z)
| VFloat (f : spec_float)
| VStr (s : string).

(** *** Strings *)

(** [str.upper()] on ASCII text: the 26 lowercase letters move to uppercase,
    every other character (blanks included) is kept. *)
Definition upper_char (c : ascii) : ascii :=
  let n := N_of_ascii c in
  if ((97 <=? n) && (n <=? 122))%N then ascii_of_N (n - 32) else c.

Fixpoint upper (s : string) : string :=
  match s with
  | EmptyString => EmptyString
  | String c s' => String (upper_char c) (upper s')
  end.

Definition is_digit (c : ascii) : bool :=
  ((48 <=? N_of_ascii c) && (N_of_ascii c <=? 57))%N.

(** At least one digit, a point, two digits. *)
Definition two_decimals (s : string) : Prop :=
  exists whole d1 d2,
    s = whole +:+ "." +:+ String d1 (String d2 "") /\
    whole <> "" /\
    Forall (fun c => is_digit c = true) (list_ascii_of_string whole) /\
    is_digit d1 = true /\ is_digit d2 = true.

(** Truth value of a string: non-empty. *)
Definition str_bool (s : string) : bool :=
  match s with
  | EmptyString => false
  | String _ _ => true
  end.

(** Decimal digits of a natural number, and [str(int)]. *)
Definition str_of_N (n : N) : string := NilZero.string_of_uint (N.to_uint n).

Definition str_of_Z (z : Z) : string :=
  match z with
  | Zneg p => "-" +:+ str_of_N (Npos p)
  | _ => str_of_N (Z.to_N z)
  end.

(** *** Floats: binary64 *)

Definition prec : Z := 53.
Definition emax : Z := 1024.

(** The exponent of the last kept bit for a value of [d] binary digits. *)
Definition fexp64 (d : Z) : Z := Z.max (d - 53) (-1074).

Definition fdiv := SFdiv prec emax.
Definition fsub := SFsub prec emax.
Definition fmul := SFmul prec emax.

Definition is_infinity (f : spec_float) : bool :=
  match f with
  | S754_infinity _ => true
  | _ => false
  end.

Definition is_zero (f : spec_float) : bool :=
  match f with
  | S754_zero _ => true
  | _ => false
  end.

(** The integer as an exact (unrounded) mantissa with exponent 0. *)
Definition exact_of_int (z : Z) : spec_float :=
  match z with
  | Z0 => S754_zero false
  | Zpos p => S754_finite false p 0
  | Zneg p => S754_finite true p 0
  end.

(** The nearest double of an integer (ties to even); infinite when the
    integer is beyond the largest double. *)
Definition nearest_float (z : Z) : spec_float := binary_normalize prec emax z 0 false.

(** [float(z)]: OverflowError (int too large to convert to float) beyond the
    range of doubles. *)
Definition float_of_int (z : Z) : result spec_float :=
  let f := nearest_float z in
  if is_infinity f then Raise OverflowError else Ok f.

(** Numbers whose conversions to a double cannot overflow. *)
Definition number_in_range (v : value) : Prop :=
  match v with
  | VInt z => Z.abs z < 2 ^ 1023
  | VFloat _ => True
  | VNone | VStr _ => False
  end.

(** [f / g] on floats. *)
Definition float_div (f g : spec_float) : result spec_float :=
  if is_zero g then Raise ZeroDivisionError else Ok (fdiv f g).

(** [x / y] on integers: the correctly rounded quotient. *)
Definition int_truediv (x y : Z) : result spec_float :=
  if y =? 0 then Raise ZeroDivisionError
  else
    let q := fdiv (exact_of_int x) (exact_of_int y) in
    if is_infinity q then Raise OverflowError else Ok q.

(** [a / b]: true division; an int operand next to a float is converted
    first. *)
Definition truediv (a b : value) : result spec_float :=
  match a, b with
  | VInt x, VInt y => int_truediv x y
  | VInt x, VFloat g => f <-! float_of_int x; float_div f g
  | VFloat f, VInt y => g <-! float_of_int y; float_div f g
  | VFloat f, VFloat g => float_div f g
  | _, _ => Raise TypeError
  end.

(** [v >= k] for an integer literal [k] below 2^53 (so that its double is
    exact and comparing doubles is comparing values). *)
Definition ge_int (v : value) (k : Z) : result bool :=
  match v with
  | VInt z => Ok (k <=? z)
  | VFloat f => Ok (SFleb (nearest_float k) f)
  | VNone | VStr _ => Raise TypeError
  end.

(** [v != s] for a string literal [s]. *)
Definition ne_str (v : value) (s : string) : bool :=
  match v with
  | VStr t => negb (String.eqb t s)
  | _ => true
  end.

(** Truth value of a dictionary entry. *)
Definition truthy (v : value) : bool :=
  match v with
  | VNone => false
  | VInt z => negb (z =? 0)
  | VFloat f => negb (is_zero f)
  | VStr s => str_bool s
  end.

(** *** Format specifications *)

Definition sign_str (s : bool) : string := if s then "-" else "".

Definition digit_char (d : Z) : ascii := ascii_of_N (48 + Z.to_N d).

(** The integer nearest to [n / d], ties to the even one ([0 <= n], [0 < d]). *)
Definition div_nearest_even (n d : Z) : Z :=
  let q := n / d in
  match 2 * (n mod d) ?= d with
  | Lt => q
  | Gt => q + 1
  | Eq => if Z.even q then q else q + 1
  end.

(** The number of hundredths nearest to the exact value [m * 2^e]. *)
Definition hundredths (m : positive) (e : Z) : Z :=
  match e with
  | Zneg p => div_nearest_even (Zpos m * 100) (2 ^ Zpos p)
  | _ => Zpos m * 2 ^ e * 100
  end.

(** [h] hundredths written with two decimals. *)
Definition fixed2 (h : Z) : string :=
  str_of_N (Z.to_N (h / 100)) +:+ "." +:+
  String (digit_char (h / 10 mod 10)) (String (digit_char (h mod 10)) "").

Definition sign_bit (f : spec_float) : bool :=
  match f with
  | S754_zero s | S754_infinity s | S754_finite s _ _ => s
  | S754_nan => false
  end.

Definition is_finite (f : spec_float) : bool :=
  match f with
  | S754_zero _ | S754_finite _ _ _ => true
  | _ => false
  end.

(** The digits of [format(f, '.2f')]: the exact binary value, correctly
    rounded to two decimals. *)
Definition magnitude_2f (f : spec_float) : string :=
  match f with
  | S754_nan => "nan"
  | S754_infinity _ => "inf"
  | S754_zero _ => "0.00"
  | S754_finite _ m e => fixed2 (hundredths m e)
  end.

(** [format(f, '.2f')] on a float: a minus sign for a set sign bit, never a
    plus sign. *)
Definition format_2f (f : spec_float) : string :=
  sign_str (sign_bit f) +:+ magnitude_2f f.

(** [format(v, '.2f')] on a dictionary entry: an int goes through [float],
    a string has no such format code, [None] has no format specs at all. *)
Definition format_spec_2f (v : value) : result string :=
  match v with
  | VInt z => f <-! float_of_int z; Ok (format_2f f)
  | VFloat f => Ok (format_2f f)
  | VStr _ => Raise ValueError
  | VNone => Raise TypeError
  end.

(** Thousands separators, on the reversed digits. *)
Fixpoint group3 (rev_digits : list ascii) : list ascii :=
  match rev_digits with
  | a :: b :: c :: ((_ :: _) as more) => a :: b :: c :: ","%char :: group3 more
  | _ => rev_digits
  end.

(** [format(z, ',')] on an int. *)
Definition grouped_int (z : Z) : string :=
  sign_str (z <? 0) +:+
  string_of_list_ascii
    (rev (group3 (rev (list_ascii_of_string (str_of_N (Z.abs_N z)))))).

(** Text handed to the page.  The shortest-digits rendering of a float
    ([str(f)], and [format(f, ',')] which groups it) is kept symbolic; every
    other part is the literal string. *)
Inductive piece :=
| Lit (s : string)
| StrFloat (f : spec_float)
| GroupedFloat (f : spec_float).

Definition text := list piece.

(** [str(v)], as interpolated by a replacement field without format spec. *)
Definition str_value (v : value) : text :=
  match v with
  | VNone => [Lit "None"]
  | VInt z => [Lit (str_of_Z z)]
  | VFloat f => [StrFloat f]
  | VStr s => [Lit s]
  end.

(** [format(v, ',')]. *)
Definition format_spec_comma (v : value) : result text :=
  match v with
  | VInt z => Ok [Lit (grouped_int z)]
  | VFloat f => Ok [GroupedFloat f]
  | VStr _ => Raise ValueError
  | VNone => Raise TypeError
  end.

End Py.

(** ** The dashboard script *)

Module Dashboard.
Import Py.

(** *** The market-data provider and the clock *)

(** Outcome of a call that the script wraps in [try ... except Exception as e]:
    the returned value, or [str(e)] of what was raised. *)
Inductive lookup (A : Type) :=
| Returns (a : A)
| Raises (e : string).
Arguments Returns {A} a.
Arguments Raises {A} e.

(** A row of the historical frame. *)
Record ohlcv := {
  Date : Z;
  Open : spec_float;
  High : spec_float;
  Low : spec_float;
  Close : spec_float;
  Volume : Z
}.

(** [yf.Ticker(symbol).info] and [yf.Ticker(symbol).history(start=, end=)]. *)
Record provider := {
  ticker_info : string -> lookup (gmap string value);
  ticker_history : string -> Z -> Z -> lookup (list ohlcv)
}.

(** A [datetime] is the number of microseconds since [datetime.min], a
    [timedelta] a number of microseconds. *)
Definition timedelta (days : Z) : Z := days * 86400000000.

Definition datetime_max : Z := 3652059 * 86400000000 - 1.

(** [d - td]: OverflowError outside years 1..9999. *)
Definition datetime_sub (d td : Z) : lookup Z :=
  let r := d - td in
  if (0 <=? r) && (r <=? datetime_max) then Returns r
  else Raises "date value out of range".

(** *** What an execution does *)

Inductive event :=
| ProfileLookup (symbol : string)
| HistoryLookup (symbol : string) (start_date end_date : Z)
| StSpinner (msg : string)
| StWarning (msg : string)
| StError (msg : string)
| StSubheader (s : string)
| StMarkdown (t : text)
| StMetric (label : string) (v : text) (delta : option string)
| StSelectbox (label : string) (options : list string) (selected : string)
| StPlotlyChart (title : text) (x : list Z) (y : list spec_float)
| StExpander (label : string)
| StDataframe (rows : list ohlcv).

(** An execution: the events so far, and a value or the uncaught exception. *)
Definition M (A : Type) : Type := list event * result A.

#[global] Instance M_ret : MRet M := fun A a => ([], Ok a).

#[global] Instance M_bind : MBind M := fun A B k m =>
  match m with
  | (l, Ok a) => let '(l', r) := k a in ((l ++ l')%list, r)
  | (l, Raise e) => (l, Raise e)
  end.

Definition emit (e : event) : M unit := ([e], Ok tt).

Definition lift {A} (r : result A) : M A := ([], r).

Definition skip : M unit := mret tt.

(** *** Dictionary reads *)

(** [info.get(key, default)] *)
Definition dict_get (info : gmap string value) (key : string) (d : value) : value :=
  default d (info !! key).

(** [key in info] *)
Definition dict_in (key : string) (info : gmap string value) : bool :=
  bool_decide (is_Some (info !! key)).

(** [key in info and info[key]] as a condition *)
Definition dict_in_and_truthy (key : string) (info : gmap string value) : bool :=
  match info !! key with
  | Some v => truthy v
  | None => false
  end.

(** Truth value of the dictionary itself: non-empty. *)
Definition dict_bool (info : gmap string value) : bool :=
  negb (bool_decide (size info = 0%nat)).

(** *** Helper functions *)

(** Fetch stock data for the given ticker symbol.  The ticker object is
    represented by its symbol.  Returns [(ticker, info)], or [(None, None)]
    after reporting the exception. *)
Definition get_stock_data (P : provider) (ticker_symbol : string)
  : M (option string * option (gmap string value)) :=
  emit (ProfileLookup ticker_symbol);;
  match ticker_info P ticker_symbol with
  | Returns info => mret (Some ticker_symbol, Some info)
  | Raises e =>
      emit (StError ("Error fetching data for " +:+ ticker_symbol +:+ ": " +:+ e));;
      mret (None, None)
  end.

(** Fetch historical stock data for the specified period.  [now] is what
    [datetime.now()] reads; an exception of the subtraction or of the
    provider is reported and [None] returned. *)
Definition get_historical_data (P : provider) (now : Z) (ticker : string) (period : string)
  : M (option (list ohlcv)) :=
  let end_date := now in
  let start_date :=
    if String.eqb period "1 Week" then datetime_sub end_date (timedelta 7)
    else if String.eqb period "1 Month" then datetime_sub end_date (timedelta 30)
    else if String.eqb period "6 Months" then datetime_sub end_date (timedelta 180)
    else if String.eqb period "1 Year" then datetime_sub end_date (timedelta 365)
    else datetime_sub end_date (timedelta 30) in
  match start_date with
  | Returns start_date =>
      emit (HistoryLookup ticker start_date end_date);;
      match ticker_history P ticker start_date end_date with
      | Returns hist_data => mret (Some hist_data)
      | Raises e =>
          emit (StError ("Error fetching historical data: " +:+ e));;
          mret None
      end
  | Raises e =>
      emit (StError ("Error fetching historical data: " +:+ e));;
      mret None
  end.

(** Format large numbers with K, M, B, T suffixes. *)
Definition format_large_number (num : value) : result string :=
  match num with
  | VNone => Ok "N/A"
  | _ =>
      t <-! ge_int num 1000000000000;
      if t : bool then
        (q <-! truediv num (VInt 1000000000000); Ok ("$" +:+ format_2f q +:+ "T"))
      else
      b <-! ge_int num 1000000000;
      if b : bool then
        (q <-! truediv num (VInt 1000000000); Ok ("$" +:+ format_2f q +:+ "B"))
      else
      m <-! ge_int num 1000000;
      if m : bool then
        (q <-! truediv num (VInt 1000000); Ok ("$" +:+ format_2f q +:+ "M"))
      else
      k <-! ge_int num 1000;
      if k : bool then
        (q <-! truediv num (VInt 1000); Ok ("$" +:+ format_2f q +:+ "K"))
      else
        (s <-! format_spec_2f num; Ok ("$" +:+ s))
  end.

(** *** The page body, in source order *)

(** The delta argument of the "Current Price" metric:
    [((current_price / previousClose) - 1) * 100] with two decimals and a
    percent sign when the profile has a [previousClose] entry, else [None]. *)
Definition price_delta (current_price : value) (info : gmap string value)
  : result (option string) :=
  if dict_in "previousClose" info then
    q <-! truediv current_price (dict_get info "previousClose" current_price);
    Ok (Some (format_2f (fmul (fsub q (nearest_float 1)) (nearest_float 100)) +:+ "%"))
  else Ok None.

(** "Company Information"; gives back [company_name]. *)
Definition company_information (ticker_input : string) (info : gmap string value)
  : M value :=
  emit (StSubheader "Company Information");;
  let company_name := dict_get info "longName" (VStr ticker_input) in
  emit (StMarkdown (Lit "### " :: str_value company_name));;
  (if dict_in_and_truthy "sector" info
   then emit (StMarkdown (Lit "**Sector:** " :: str_value (dict_get info "sector" (VStr "N/A"))))
   else skip);;
  (if dict_in_and_truthy "industry" info
   then emit (StMarkdown (Lit "**Industry:** " :: str_value (dict_get info "industry" (VStr "N/A"))))
   else skip);;
  (if dict_in_and_truthy "website" info
   then emit (StMarkdown ([Lit "**Website:** ["]
                            ++ str_value (dict_get info "website" (VStr "N/A"))
                            ++ [Lit "]("]
                            ++ str_value (dict_get info "website" (VStr "#"))
                            ++ [Lit ")"])%list)
   else skip);;
  (if dict_in_and_truthy "longBusinessSummary" info
   then emit (StMarkdown [Lit "**Business Summary:**"]);;
        emit (StMarkdown ([Lit "<div style='height: 100px; overflow-y: auto;'>"]
                            ++ str_value (dict_get info "longBusinessSummary" (VStr "N/A"))
                            ++ [Lit "</div>"])%list)
   else skip);;
  emit (StMarkdown [Lit "---"]);;
  mret company_name.

(** "Key Stock Metrics" *)
Definition key_stock_metrics (info : gmap string value) : M unit :=
  emit (StSubheader "Key Stock Metrics");;
  let current_price := dict_get info "currentPrice" (VStr "N/A") in
  (if ne_str current_price "N/A" then
     v ← lift (format_spec_2f current_price);
     delta ← lift (price_delta current_price info);
     emit (StMetric "Current Price" [Lit ("$" +:+ v)] delta)
   else emit (StMetric "Current Price" [Lit "N/A"] None));;
  previous_close ← lift (if dict_in "previousClose" info
                         then (c <-! format_spec_2f (dict_get info "previousClose" (VInt 0));
                               Ok ("$" +:+ c))
                         else Ok "N/A");
  emit (StMetric "Previous Close" [Lit previous_close] None);;
  market_cap ← lift (format_large_number (dict_get info "marketCap" VNone));
  emit (StMetric "Market Cap" [Lit market_cap] None);;
  volume ← lift (if dict_in "volume" info
                 then format_spec_comma (dict_get info "volume" (VInt 0))
                 else Ok [Lit "N/A"]);
  emit (StMetric "Volume" volume None);;
  pe_ratio ← lift (if dict_in_and_truthy "trailingPE" info
                   then format_spec_2f (dict_get info "trailingPE" (VInt 0))
                   else Ok "N/A");
  emit (StMetric "P/E Ratio" [Lit pe_ratio] None);;
  range ← lift (if dict_in "fiftyTwoWeekLow" info && dict_in "fiftyTwoWeekHigh" info
                then (lo <-! format_spec_2f (dict_get info "fiftyTwoWeekLow" (VInt 0));
                      hi <-! format_spec_2f (dict_get info "fiftyTwoWeekHigh" (VInt 0));
                      Ok ("$" +:+ lo +:+ " - $" +:+ hi))
                else Ok "N/A");
  emit (StMetric "52 Week Range" [Lit range] None);;
  emit (StMarkdown [Lit "---"]).

Definition not_found_message (ticker_input : string) : string :=
  "Could not find stock data for ticker '" +:+ ticker_input
    +:+ "'. Please check the symbol and try again.".

Definition no_data_message (ticker_input : string) : string :=
  "No historical data available for " +:+ ticker_input
    +:+ " over the selected time period.".

Definition time_periods : list string := ["1 Week"; "1 Month"; "6 Months"; "1 Year"].

(** "Historical Price Chart"; [selected_period] is what the select box
    returns. *)
Definition historical_price_chart (P : provider) (now : Z) (ticker_input : string)
    (ticker : string) (company_name : value) (selected_period : string) : M unit :=
  emit (StSubheader "Historical Price Chart");;
  emit (StSelectbox "Select Time Frame" time_periods selected_period);;
  hist_data ← get_historical_data P now ticker selected_period;
  match hist_data with
  | Some (first :: others) =>
      let rows := first :: others in
      let latest := List.last others first in
      emit (StPlotlyChart (str_value company_name
                             ++ [Lit (" Stock Price (" +:+ selected_period +:+ ")")])%list
                          (map Date rows) (map Close rows));;
      emit (StSubheader "Price Statistics");;
      emit (StMetric "Open" [Lit ("$" +:+ format_2f (Open latest))] None);;
      emit (StMetric "High" [Lit ("$" +:+ format_2f (High latest))] None);;
      emit (StMetric "Low" [Lit ("$" +:+ format_2f (Low latest))] None);;
      emit (StMetric "Close" [Lit ("$" +:+ format_2f (Close latest))] None);;
      emit (StExpander "View Historical Data Table");;
      emit (StDataframe rows)
  | _ =>
      emit (StError (no_data_message ticker_input))
  end.

(** The page for a profile that was found. *)
Definition stock_page (P : provider) (now : Z) (ticker_input : string)
    (ticker : string) (info : gmap string value) (selected_period : string) : M unit :=
  company_name ← company_information ticker_input info;
  key_stock_metrics info;;
  historical_price_chart P now ticker_input ticker company_name selected_period.

(** One execution of the script for the given widget values: the text box
    content, whether the button was clicked, the select box choice. *)
Definition script (P : provider) (now : Z) (text_input : string)
    (submit_button : bool) (selected_period : string) : M unit :=
  let ticker_input := upper text_input in
  emit (StMarkdown [Lit "###"]);;
  if submit_button || str_bool ticker_input then
    if negb (str_bool ticker_input) then
      emit (StWarning "Please enter a stock ticker symbol.")
    else
      emit (StSpinner ("Fetching data for " +:+ ticker_input +:+ "..."));;
      '(ticker, info) ← get_stock_data P ticker_input;
      match ticker, info with
      | Some ticker, Some info =>
          if dict_bool info then
            stock_page P now ticker_input ticker info selected_period
          else emit (StError (not_found_message ticker_input))
      | _, _ => emit (StError (not_found_message ticker_input))
      end
  else skip.

(** *** Interactions

    Streamlit keeps the widget values between executions and runs the script
    again, from the top, whenever one of them changes; the button reads
    [True] only in the execution its click starts. *)






(** *** Reading an execution *)

Definition is_profile_lookup (e : event) : bool :=
  match e with
  | ProfileLookup _ => true
  | _ => false
  end.

Definition is_history_lookup (e : event) : bool :=
  match e with
  | HistoryLookup _ _ _ => true
  | _ => false
  end.

Definition is_provider_call (e : event) : bool :=
  is_profile_lookup e || is_history_lookup e.

Definition provider_calls (log : list event) : list event :=
  filter (fun e => is_provider_call e = true) log.

Definition call_symbol (e : event) : option string :=
  match e with
  | ProfileLookup symbol => Some symbol
  | HistoryLookup symbol _ _ => Some symbol
  | _ => None
  end.

(** The [(start, end)] pairs the historical lookups were made with. *)
Fixpoint history_windows (log : list event) : list (Z * Z) :=
  match log with
  | [] => []
  | HistoryLookup _ start_date end_date :: log' =>
      (start_date, end_date) :: history_windows log'
  | _ :: log' => history_windows log'
  end.

Definition is_error_banner (e : event) : bool :=
  match e with
  | StError _ => true
  | _ => false
  end.

(** Rows handed to the chart. *)
Fixpoint chart_rows (log : list event) : nat :=
  match log with
  | [] => 0%nat
  | StPlotlyChart _ x _ :: log' => (length x + chart_rows log')%nat
  | _ :: log' => chart_rows log'
  end.

Definition is_subheader (s : string) (e : event) : bool :=
  match e with
  | StSubheader t => String.eqb s t
  | _ => false
  end.

Definition is_error_with (msg : string) (e : event) : bool :=
  match e with
  | StError t => String.eqb msg t
  | _ => false
  end.

(** The states of the specification, read off a finished execution for the
    symbol [ticker_input]: [Failed] when the could-not-find banner was shown,
    [Displaying] when the page reached the historical section and the script
    completed, [Idle] when nothing was looked up. *)
Inductive state := Idle | Displaying | Failed.

Definition reaches (ticker_input : string) (run : M unit) : option state :=
  match run with
  | (log, Ok _) =>
      if existsb (is_error_with (not_found_message ticker_input)) log then Some Failed
      else if existsb (is_subheader "Historical Price Chart") log then Some Displaying
      else if existsb is_provider_call log then None
      else Some Idle
  | (_, Raise _) => None
  end.

(** The windows requested from the provider for a period selector. *)
Definition resolved_windows (P : provider) (now : Z) (ticker period : string)
  : list (Z * Z) :=
  history_windows (fst (get_historical_data P now ticker period)).

(** Headings, markdown and metrics: what the profile part of the page is
    made of. *)
Definition is_page_element (e : event) : bool :=
  match e with
  | StSubheader _ | StMarkdown _ | StMetric _ _ _ => true
  | _ => false
  end.

(** Not a provider call, unless a historical lookup for [ticker]. *)
Definition only_history_of (ticker : string) (e : event) : bool :=
  match e with
  | ProfileLookup _ => false
  | HistoryLookup symbol _ _ => String.eqb symbol ticker
  | _ => true
  end.

(** Every event of the execution satisfies [p]. *)
Definition emits {A} (p : event -> bool) (m : M A) : Prop :=
  forallb p (fst m) = true.


End Dashboard.

(** ** Sample providers *)

Module Stub.
Import Py Dashboard.

Definition profile : gmap string value :=
  list_to_map [("longName", VStr "Apple Inc."); ("currentPrice", VInt 101);
               ("previousClose", VInt 100); ("marketCap", VInt 2500000000)].

(** A profile whose previous close is zero. *)
Definition flat_profile : gmap string value :=
  list_to_map [("longName", VStr "Apple Inc."); ("currentPrice", VInt 100);
               ("previousClose", VInt 0)].

(** A moment in 2025. *)
Definition clock : Z := 63900000000000000.

(** Knows every symbol, has no rows for any window. *)
Definition no_rows : provider :=
  {| ticker_info := fun _ => Returns profile;
     ticker_history := fun _ _ _ => Returns [] |}.


(** Answers every profile lookup with an empty dictionary. *)
Definition unknown : provider :=
  {| ticker_info := fun _ => Returns ∅;
     ticker_history := fun _ _ _ => Returns [] |}.

(** Knows every symbol, with a previous close of zero. *)
Definition flat : provider :=
  {| ticker_info := fun _ => Returns flat_profile;
     ticker_history := fun _ _ _ => Returns [] |}.

(** One trading day, whatever the window. *)
Definition day : ohlcv :=
  {| Date := 63899900000000000; Open := nearest_float 10; High := nearest_float 12;
     Low := nearest_float 9; Close := nearest_float 11; Volume := 1000 |}.

(** Knows every symbol, answers every window with that one row. *)
Definition one_row : provider :=
  {| ticker_info := fun _ => Returns profile;
     ticker_history := fun _ _ _ => Returns [day] |}.

End Stub.

(** ** The tables of the specification *)

Module Spec.
Import Py.

(** The day-count offset of a period selector: the fixed table, 30 days for
    anything else. *)
Definition offsets : list (string * Z) :=
  [("1 Week", 7); ("1 Month", 30); ("6 Months", 180); ("1 Year", 365)].

Definition offset (period : string) : Z :=
  match List.find (fun entry => String.eqb period (fst entry)) offsets with
  | Some entry => snd entry
  | None => 30
  end.

Definition suffixes : list (string * Z) :=
  [("T", 10 ^ 12); ("B", 10 ^ 9); ("M", 10 ^ 6); ("K", 10 ^ 3)].

(** A suffix applies when the number reaches its scale. *)
Definition applicable (x : value) (suffix : string * Z) : bool :=
  match ge_int x (snd suffix) with
  | Ok b => b
  | Raise _ => false
  end.

Definition larger (a b : string * Z) : string * Z :=
  if snd a <? snd b then b else a.

Definition largest_applicable (x : value) : option (string * Z) :=
  match List.filter (applicable x) suffixes with
  | [] => None
  | first :: others => Some (fold_left larger others first)
  end.

Definition suffix_for (x : value) : string :=
  match largest_applicable x with
  | Some suffix => fst suffix
  | None => ""
  end.

(** Absent: "N/A"; else the largest applicable suffix with two decimals and
    the currency prefix; below every scale, plain currency. *)
Definition formatLargeNumber (x : value) : result string :=
  match x with
  | VNone => Ok "N/A"
  | _ =>
      match largest_applicable x with
      | Some (suffix, scale) =>
          q <-! truediv x (VInt scale); Ok ("$" +:+ format_2f q +:+ suffix)
      | None => s <-! format_spec_2f x; Ok ("$" +:+ s)
      end
  end.

End Spec.

(** ** Further readings of a page *)

Module Page.
Import Py Dashboard.

(** The labels of the metrics shown, in order. *)
Fixpoint metric_labels (log : list event) : list string :=
  match log with
  | [] => []
  | StMetric label _ _ :: log' => label :: metric_labels log'
  | _ :: log' => metric_labels log'
  end.

(** The profile keys that the metrics format as numbers. *)
Definition numeric_keys : list string :=
  ["currentPrice"; "previousClose"; "marketCap"; "volume"; "trailingPE";
   "fiftyTwoWeekLow"; "fiftyTwoWeekHigh"].

(** Whatever the profile holds under those keys is a number that converts
    to a double. *)
Definition numeric_profile (info : gmap string value) : Prop :=
  forall key v, In key numeric_keys -> info !! key = Some v -> number_in_range v.

(** A zero of either numeric type. *)
Definition is_zero_number (v : value) : bool :=
  match v with
  | VInt z => z =? 0
  | VFloat f => is_zero f
  | VNone | VStr _ => false
  end.

(** The optional profile fields of the company part, each with the text
    that opens its markdown line. *)
Definition company_fields : list (string * string) :=
  [("sector", "**Sector:** "); ("industry", "**Industry:** ");
   ("website", "**Website:** ["); ("longBusinessSummary", "**Business Summary:**")].

Definition not_comma (c : ascii) : bool := negb (Ascii.eqb c ","%char).

(** The string without its commas. *)
Fixpoint strip_commas (s : string) : string :=
  match s with
  | EmptyString => EmptyString
  | String c s' =>
      if Ascii.eqb c ","%char then strip_commas s' else String c (strip_commas s')
  end.

(** The value expressions of the metrics after "Current Price", as the
    source writes them. *)
Definition previous_close_value (info : gmap string value) : result string :=
  if dict_in "previousClose" info
  then (c <-! format_spec_2f (dict_get info "previousClose" (VInt 0)); Ok ("$" +:+ c))
  else Ok "N/A".

Definition market_cap_value (info : gmap string value) : result string :=
  format_large_number (dict_get info "marketCap" VNone).

Definition volume_value (info : gmap string value) : result text :=
  if dict_in "volume" info
  then format_spec_comma (dict_get info "volume" (VInt 0))
  else Ok [Lit "N/A"].

Definition pe_ratio_value (info : gmap string value) : result string :=
  if dict_in_and_truthy "trailingPE" info
  then format_spec_2f (dict_get info "trailingPE" (VInt 0))
  else Ok "N/A".

Definition week_range_value (info : gmap string value) : result string :=
  if dict_in "fiftyTwoWeekLow" info && dict_in "fiftyTwoWeekHigh" info
  then (lo <-! format_spec_2f (dict_get info "fiftyTwoWeekLow" (VInt 0));
        hi <-! format_spec_2f (dict_get info "fiftyTwoWeekHigh" (VInt 0));
        Ok ("$" +:+ lo +:+ " - $" +:+ hi))
  else Ok "N/A".

(** The "Current Price" metric. *)
Definition current_price_metric (info : gmap string value) : result event :=
  let current_price := dict_get info "currentPrice" (VStr "N/A") in
  if ne_str current_price "N/A" then
    v <-! format_spec_2f current_price;
    delta <-! price_delta current_price info;
    Ok (StMetric "Current Price" [Lit ("$" +:+ v)] delta)
  else Ok (StMetric "Current Price" [Lit "N/A"] None).

End Page.

(** ** Properties *)

Import Py Dashboard Page.

(** *** Executions *)

Lemma log_bind {A B} (m : M A) (k : A -> M B) :
  fst (m ≫= k) =
  match snd m with
  | Ok a => (fst m ++ fst (k a))%list
  | Raise _ => fst m
  end.
Proof.
  destruct m as [l [a|e]]; simpl; [|reflexivity].
  destruct (k a); reflexivity.
Qed.

Lemma outcome_bind {A B} (m : M A) (k : A -> M B) :
  snd (m ≫= k) =
  match snd m with
  | Ok a => snd (k a)
  | Raise e => Raise e
  end.
Proof.
  destruct m as [l [a|e]]; simpl; [|reflexivity].
  destruct (k a); reflexivity.
Qed.

Lemma bind_emit {B} (e : event) (k : unit -> M B) :
  emit e ≫= k = (e :: fst (k tt), snd (k tt)).
Proof. unfold emit; simpl. destruct (k tt); reflexivity. Qed.

Lemma bind_lift_ok {A B} (a : A) (k : A -> M B) : lift (Ok a) ≫= k = k a.
Proof. unfold lift; simpl. destruct (k a); reflexivity. Qed.

Lemma bind_lift_raise {A B} (e : exn) (k : A -> M B) :
  lift (Raise e) ≫= k = ([], Raise e).
Proof. reflexivity. Qed.

Lemma bind_ret {A B} (a : A) (k : A -> M B) : mret a ≫= k = k a.
Proof. unfold mret, M_ret; simpl. destruct (k a); reflexivity. Qed.

(** *** The time window *)

Lemma datetime_sub_in_range (now days : Z) :
  0 <= days ->
  timedelta days <= now <= datetime_max ->
  datetime_sub now (timedelta days) = Returns (now - timedelta days).
Proof.
  intros Hd [Hlo Hhi]. unfold datetime_sub.
  assert (0 <= timedelta days) by (unfold timedelta; lia).
  replace ((0 <=? now - timedelta days) && (now - timedelta days <=? datetime_max))
    with true; [reflexivity|].
  symmetry. apply andb_true_intro; split; lia.
Qed.

Lemma history_windows_lookup (P : provider) (ticker : string) (start_date now : Z) :
  history_windows
    (fst (emit (HistoryLookup ticker start_date now);;
          match ticker_history P ticker start_date now with
          | Returns hist_data => mret (Some hist_data)
          | Raises e =>
              emit (StError ("Error fetching historical data: " +:+ e));; mret None
          end)) = [(start_date, now)].
Proof.
  rewrite bind_emit. simpl.
  destruct (ticker_history P ticker start_date now); reflexivity.
Qed.

Section TimeWindow.
Variables (P : provider) (ticker : string) (now : Z).
Hypothesis clock_range : timedelta 365 <= now <= datetime_max.

Lemma window_of_days (period : string) (days : Z) :
  0 <= days <= 365 ->
  (if String.eqb period "1 Week" then datetime_sub now (timedelta 7)
   else if String.eqb period "1 Month" then datetime_sub now (timedelta 30)
   else if String.eqb period "6 Months" then datetime_sub now (timedelta 180)
   else if String.eqb period "1 Year" then datetime_sub now (timedelta 365)
   else datetime_sub now (timedelta 30)) = datetime_sub now (timedelta days) ->
  resolved_windows P now ticker period = [(now - timedelta days, now)].
Proof.
  intros Hd Hsel. unfold resolved_windows, get_historical_data.
  rewrite Hsel, datetime_sub_in_range.
  - apply history_windows_lookup.
  - lia.
  - unfold timedelta in *; lia.
Qed.

(** C2: each selector of the enumeration resolves to the window that ends
    now and starts 7, 30, 180 or 365 days earlier, and any other selector
    to the 30-day window.  The window is the one the historical lookup is
    made with; the clock is a datetime at least 365 days after
    [datetime.min]. *)
Theorem period_window :
  resolved_windows P now ticker "1 Week" = [(now - timedelta 7, now)] /\
  resolved_windows P now ticker "1 Month" = [(now - timedelta 30, now)] /\
  resolved_windows P now ticker "6 Months" = [(now - timedelta 180, now)] /\
  resolved_windows P now ticker "1 Year" = [(now - timedelta 365, now)] /\
  (forall period, ~ In period time_periods ->
     resolved_windows P now ticker period = [(now - timedelta 30, now)]).
Proof.
  repeat split; try (apply window_of_days; [lia | reflexivity]).
  intros period Hout. apply window_of_days; [lia|].
  assert (Hne : forall s, In s time_periods -> String.eqb period s = false).
  { intros s Hs. apply String.eqb_neq. intros ->. contradiction. }
  rewrite !Hne by (simpl; tauto). reflexivity.
Qed.
End TimeWindow.

Lemma period_window_witness :
  resolved_windows Stub.no_rows Stub.clock "AAPL" "1 Week"
    = [(63899395200000000, 63900000000000000)] /\
  resolved_windows Stub.no_rows Stub.clock "AAPL" "Year to date"
    = [(63897408000000000, 63900000000000000)].
Proof.
  assert (Hclock : timedelta 365 <= Stub.clock <= datetime_max)
    by (vm_compute; split; discriminate).
  destruct (period_window Stub.no_rows "AAPL" Stub.clock Hclock)
    as (Hweek & _ & _ & _ & Hother).
  split; [exact Hweek|].
  apply Hother. simpl. intros [H|[H|[H|[H|[]]]]]; discriminate H.
Defined.


(** *** What the parts of the page emit *)

Lemma emits_bind {A B} p (m : M A) (k : A -> M B) :
  emits p m -> (forall a, emits p (k a)) -> emits p (m ≫= k).
Proof.
  unfold emits. intros Hm Hk. rewrite log_bind.
  destruct (snd m); [|exact Hm].
  rewrite forallb_app, Hm. apply Hk.
Qed.

Lemma emits_emit p (e : event) : p e = true -> emits p (emit e).
Proof. unfold emits; simpl. intros ->. reflexivity. Qed.

Lemma emits_lift {A} p (r : result A) : emits p (lift r).
Proof. reflexivity. Qed.

Lemma emits_ret {A} p (a : A) : emits p (mret a : M A).
Proof. reflexivity. Qed.

Lemma emits_skip p : emits p skip.
Proof. reflexivity. Qed.

Create HintDb page.
#[local] Hint Resolve emits_emit emits_lift emits_ret emits_skip : page.

Ltac emits_step :=
  match goal with
  | |- emits _ (_ ≫= _) => apply emits_bind; [|intros ?]
  | |- emits _ (if ?c then _ else _) => destruct c
  | |- emits _ _ => solve [auto with page]
  end.

Lemma company_information_emits (ticker_input : string) info :
  emits is_page_element (company_information ticker_input info).
Proof. unfold company_information. repeat emits_step. Qed.

Lemma company_information_outcome (ticker_input : string) info :
  snd (company_information ticker_input info)
  = Ok (dict_get info "longName" (VStr ticker_input)).
Proof.
  unfold company_information.
  destruct (dict_in_and_truthy "sector" info),
           (dict_in_and_truthy "industry" info),
           (dict_in_and_truthy "website" info),
           (dict_in_and_truthy "longBusinessSummary" info); reflexivity.
Qed.

Lemma key_stock_metrics_emits info : emits is_page_element (key_stock_metrics info).
Proof. unfold key_stock_metrics. repeat emits_step. Qed.

Lemma page_elements_no_calls (log : list event) :
  forallb is_page_element log = true -> provider_calls log = [].
Proof.
  induction log as [|e log IH]; simpl; [reflexivity|].
  intros [He Hlog]%andb_prop. unfold provider_calls in *.
  rewrite filter_cons, IH by exact Hlog.
  destruct e; try discriminate He; reflexivity.
Qed.

Lemma page_elements_no_chart (log : list event) :
  forallb is_page_element log = true -> chart_rows log = 0%nat.
Proof.
  induction log as [|e log IH]; simpl; [reflexivity|].
  intros [He Hlog]%andb_prop. destruct e; try discriminate He; auto.
Qed.

Lemma page_elements_no_banner (log : list event) :
  forallb is_page_element log = true -> existsb is_error_banner log = false.
Proof.
  induction log as [|e log IH]; simpl; [reflexivity|].
  intros [He Hlog]%andb_prop. destruct e; try discriminate He; auto.
Qed.

(** *** The script, case by case *)

Lemma str_bool_upper (s : string) : str_bool (upper s) = str_bool s.
Proof. destruct s; reflexivity. Qed.

Lemma script_empty (P : provider) (now : Z) (submit_button : bool) (period : string) :
  script P now "" submit_button period =
  (StMarkdown [Lit "###"]
     :: (if submit_button then [StWarning "Please enter a stock ticker symbol."] else []),
   Ok tt).
Proof. destruct submit_button; reflexivity. Qed.

Section Lookup.
Variables (P : provider) (now : Z) (text_input : string) (submit_button : bool)
          (period : string).
Let ticker_input := upper text_input.
Hypothesis entered : str_bool ticker_input = true.

Lemma script_lookup_raises (e : string) :
  ticker_info P ticker_input = Raises e ->
  script P now text_input submit_button period =
  ([StMarkdown [Lit "###"];
    StSpinner ("Fetching data for " +:+ ticker_input +:+ "...");
    ProfileLookup ticker_input;
    StError ("Error fetching data for " +:+ ticker_input +:+ ": " +:+ e);
    StError (not_found_message ticker_input)], Ok tt).
Proof.
  intros Hinfo. unfold script, get_stock_data. fold ticker_input.
  rewrite entered, orb_true_r, Hinfo. reflexivity.
Qed.

Lemma script_lookup_empty info :
  ticker_info P ticker_input = Returns info ->
  dict_bool info = false ->
  script P now text_input submit_button period =
  ([StMarkdown [Lit "###"];
    StSpinner ("Fetching data for " +:+ ticker_input +:+ "...");
    ProfileLookup ticker_input;
    StError (not_found_message ticker_input)], Ok tt).
Proof.
  intros Hinfo Hempty. unfold script, get_stock_data. fold ticker_input.
  rewrite entered, orb_true_r, Hinfo. simpl. rewrite Hempty. reflexivity.
Qed.

Lemma script_lookup_found info :
  ticker_info P ticker_input = Returns info ->
  dict_bool info = true ->
  script P now text_input submit_button period =
  ([StMarkdown [Lit "###"];
    StSpinner ("Fetching data for " +:+ ticker_input +:+ "...");
    ProfileLookup ticker_input]
     ++ fst (stock_page P now ticker_input ticker_input info period),
   snd (stock_page P now ticker_input ticker_input info period))%list.
Proof.
  intros Hinfo Hfound. unfold script, get_stock_data. fold ticker_input.
  rewrite entered, orb_true_r, Hinfo. simpl. rewrite Hfound.
  destruct (stock_page P now ticker_input ticker_input info period).
  reflexivity.
Qed.
End Lookup.

(** *** The historical section *)

Lemma offset_range (period : string) : 0 <= Spec.offset period <= 365.
Proof.
  unfold Spec.offset; simpl.
  repeat match goal with
         | |- context [String.eqb period ?s] => destruct (String.eqb period s); simpl
         end; lia.
Qed.

Section Historical.
Variables (P : provider) (now : Z) (ticker period : string).
Hypothesis clock_range : timedelta 365 <= now <= datetime_max.
Let start_date := now - timedelta (Spec.offset period).

Lemma get_historical_data_eq :
  get_historical_data P now ticker period =
  match ticker_history P ticker start_date now with
  | Returns hist_data => ([HistoryLookup ticker start_date now], Ok (Some hist_data))
  | Raises e =>
      ([HistoryLookup ticker start_date now;
        StError ("Error fetching historical data: " +:+ e)], Ok None)
  end.
Proof.
  unfold get_historical_data.
  assert (Hsel :
    (if String.eqb period "1 Week" then datetime_sub now (timedelta 7)
     else if String.eqb period "1 Month" then datetime_sub now (timedelta 30)
     else if String.eqb period "6 Months" then datetime_sub now (timedelta 180)
     else if String.eqb period "1 Year" then datetime_sub now (timedelta 365)
     else datetime_sub now (timedelta 30))
    = datetime_sub now (timedelta (Spec.offset period))).
  { unfold Spec.offset; simpl.
    repeat match goal with
           | |- context [String.eqb period ?s] => destruct (String.eqb period s); simpl
           end; reflexivity. }
  rewrite Hsel, datetime_sub_in_range.
  - fold start_date. destruct (ticker_history P ticker start_date now); reflexivity.
  - apply offset_range.
  - pose proof (offset_range period). unfold timedelta in *. lia.
Qed.

Lemma chart_no_rows (ticker_input : string) (company_name : value) :
  ticker_history P ticker start_date now = Returns [] ->
  historical_price_chart P now ticker_input ticker company_name period =
  ([StSubheader "Historical Price Chart";
    StSelectbox "Select Time Frame" time_periods period;
    HistoryLookup ticker start_date now;
    StError (no_data_message ticker_input)], Ok tt).
Proof.
  intros Hrows. unfold historical_price_chart.
  rewrite get_historical_data_eq, Hrows. reflexivity.
Qed.

Lemma chart_lookup_failed (ticker_input : string) (company_name : value) (e : string) :
  ticker_history P ticker start_date now = Raises e ->
  historical_price_chart P now ticker_input ticker company_name period =
  ([StSubheader "Historical Price Chart";
    StSelectbox "Select Time Frame" time_periods period;
    HistoryLookup ticker start_date now;
    StError ("Error fetching historical data: " +:+ e);
    StError (no_data_message ticker_input)], Ok tt).
Proof.
  intros Hrows. unfold historical_price_chart.
  rewrite get_historical_data_eq, Hrows. reflexivity.
Qed.

End Historical.

Lemma stock_page_eq (P : provider) (now : Z) (ticker_input ticker : string) info
    (period : string) :
  snd (key_stock_metrics info) = Ok tt ->
  stock_page P now ticker_input ticker info period =
  (fst (company_information ticker_input info)
     ++ fst (key_stock_metrics info)
     ++ fst (historical_price_chart P now ticker_input ticker
               (dict_get info "longName" (VStr ticker_input)) period),
   snd (historical_price_chart P now ticker_input ticker
          (dict_get info "longName" (VStr ticker_input)) period))%list.
Proof.
  intros Hmetrics. unfold stock_page.
  pose proof (company_information_outcome ticker_input info) as Hname.
  destruct (company_information ticker_input info) as [l1 r1].
  destruct (key_stock_metrics info) as [l2 r2].
  simpl in Hname, Hmetrics. subst r1 r2. simpl.
  destruct (historical_price_chart P now ticker_input ticker _ period) as [l3 r3].
  reflexivity.
Qed.

(** *** Which provider calls an execution makes *)

Lemma emits_weaken {A} (p q : event -> bool) (m : M A) :
  (forall e, p e = true -> q e = true) -> emits p m -> emits q m.
Proof.
  unfold emits. intros Hpq Hp.
  apply forallb_forall. intros e He.
  apply Hpq. revert e He. apply forallb_forall. exact Hp.
Qed.

Ltac emits_cases :=
  repeat first
    [ emits_step
    | match goal with
      | |- emits _ (match ?x with _ => _ end) => destruct x
      end ].

Lemma get_historical_data_emits (P : provider) (now : Z) (ticker period : string) :
  emits (only_history_of ticker) (get_historical_data P now ticker period).
Proof.
  unfold get_historical_data.
  assert (Hself : String.eqb ticker ticker = true) by apply String.eqb_refl.
  emits_cases; apply emits_emit; simpl; auto.
Qed.

Lemma historical_price_chart_emits (P : provider) (now : Z)
    (ticker_input ticker : string) (company_name : value) (period : string) :
  emits (only_history_of ticker)
        (historical_price_chart P now ticker_input ticker company_name period).
Proof.
  unfold historical_price_chart.
  apply emits_bind; [auto with page|intros _].
  apply emits_bind; [auto with page|intros _].
  apply emits_bind; [apply get_historical_data_emits|intros hist_data].
  destruct hist_data as [[|first others]|]; emits_cases.
Qed.

Lemma stock_page_emits (P : provider) (now : Z) (ticker_input ticker : string) info
    (period : string) :
  emits (only_history_of ticker) (stock_page P now ticker_input ticker info period).
Proof.
  assert (Hpage : forall e, is_page_element e = true -> only_history_of ticker e = true)
    by (intros []; simpl; congruence).
  unfold stock_page.
  apply emits_bind; [|intros company_name; apply emits_bind; [|intros _]].
  - eapply emits_weaken; [exact Hpage | apply company_information_emits].
  - eapply emits_weaken; [exact Hpage | apply key_stock_metrics_emits].
  - apply historical_price_chart_emits.
Qed.

Lemma only_history_calls (ticker : string) (log : list event) :
  forallb (only_history_of ticker) log = true ->
  Forall (fun call => call_symbol call = Some ticker /\ is_history_lookup call = true)
         (provider_calls log).
Proof.
  induction log as [|e log IH]; simpl; [constructor|].
  intros [He Hlog]%andb_prop. unfold provider_calls in *.
  rewrite filter_cons.
  destruct e; simpl in *; try discriminate He; auto.
  constructor; [|auto].
  apply String.eqb_eq in He. subst. auto.
Qed.

(** Once a symbol is entered, the execution starts with the profile lookup
    for its uppercase form; whatever follows is a historical lookup for the
    same symbol. *)
Lemma script_calls (P : provider) (now : Z) (text_input : string)
    (submit_button : bool) (period : string) :
  str_bool text_input = true ->
  exists rest,
    provider_calls (fst (script P now text_input submit_button period))
    = ProfileLookup (upper text_input) :: rest /\
    Forall (fun call => call_symbol call = Some (upper text_input)
                        /\ is_history_lookup call = true) rest.
Proof.
  intros Hentered. rewrite <- str_bool_upper in Hentered.
  destruct (ticker_info P (upper text_input)) as [info|e] eqn:Hinfo.
  - destruct (dict_bool info) eqn:Hfound.
    + rewrite (script_lookup_found P now text_input submit_button period
                 Hentered info Hinfo Hfound).
      eexists; split; [reflexivity|].
      apply only_history_calls, stock_page_emits.
    + rewrite (script_lookup_empty P now text_input submit_button period
                 Hentered info Hinfo Hfound).
      exists []. split; [reflexivity | constructor].
  - rewrite (script_lookup_raises P now text_input submit_button period
               Hentered e Hinfo).
    exists []. split; [reflexivity | constructor].
Qed.

(** *** Input normalisation *)





(** *** Empty input *)

(** C7, as stated, fails: a whitespace-only input is looked up. *)
Lemma blank_input_is_looked_up :
  ~ provider_calls (fst (script Stub.unknown Stub.clock " " false "1 Month")) = [].
Proof.
  destruct (script_calls Stub.unknown Stub.clock " " false "1 Month" eq_refl)
    as (rest & -> & _).
  discriminate.
Qed.

(** C7, amended: for the empty input no provider call is made, and the
    warning "Please enter a stock ticker symbol." is the only thing shown when
    the button was clicked (nothing is shown otherwise); every non-empty
    input, a whitespace-only one included, is looked up in its uppercase
    form. *)
Theorem empty_input_no_lookup (P : provider) (now : Z) (submit_button : bool)
    (period : string) :
  script P now "" submit_button period =
    (StMarkdown [Lit "###"]
       :: (if submit_button
           then [StWarning "Please enter a stock ticker symbol."] else []),
     Ok tt) /\
  provider_calls (fst (script P now "" submit_button period)) = [] /\
  (forall text_input, text_input <> "" ->
     exists rest,
       provider_calls (fst (script P now text_input submit_button period))
       = ProfileLookup (upper text_input) :: rest).
Proof.
  split; [apply script_empty|split].
  - rewrite script_empty. destruct submit_button; reflexivity.
  - intros text_input Hne.
    assert (Hentered : str_bool text_input = true)
      by (destruct text_input; [contradiction | reflexivity]).
    destruct (script_calls P now text_input submit_button period Hentered)
      as (rest & Hcalls & _).
    exists rest. exact Hcalls.
Qed.

Lemma empty_input_no_lookup_witness :
  exists rest,
    provider_calls (fst (script Stub.unknown Stub.clock "   " true "1 Month"))
    = ProfileLookup "   " :: rest.
Proof.
  destruct (empty_input_no_lookup Stub.unknown Stub.clock true "1 Month")
    as (_ & _ & Hlookup).
  apply (Hlookup "   "). discriminate.
Defined.

(** *** Failed profile lookup *)





(** *** Found profile: the page and its lookups *)

Lemma provider_calls_app (l1 l2 : list event) :
  provider_calls (l1 ++ l2) = (provider_calls l1 ++ provider_calls l2)%list.
Proof. apply filter_app. Qed.

Lemma chart_rows_app (l1 l2 : list event) :
  chart_rows (l1 ++ l2) = (chart_rows l1 + chart_rows l2)%nat.
Proof.
  induction l1 as [|e l1 IH]; simpl; [reflexivity|].
  destruct e; auto. rewrite IH. lia.
Qed.

Lemma no_banner_no_message (msg : string) (log : list event) :
  existsb is_error_banner log = false -> existsb (is_error_with msg) log = false.
Proof.
  induction log as [|e log IH]; simpl; [reflexivity|].
  intros [He Hlog]%orb_false_elim. rewrite IH by exact Hlog.
  destruct e; try discriminate He; reflexivity.
Qed.

Section Found.
Variables (P : provider) (now : Z) (text_input : string) (submit_button : bool)
          (period : string) (info : gmap string value).
Let ticker_input := upper text_input.
Let start_date := now - timedelta (Spec.offset period).
Let profile_part : list event :=
  ([StMarkdown [Lit "###"];
    StSpinner ("Fetching data for " +:+ ticker_input +:+ "...");
    ProfileLookup ticker_input]
   ++ fst (company_information ticker_input info)
   ++ fst (key_stock_metrics info))%list.
Hypothesis entered : str_bool ticker_input = true.
Hypothesis found : ticker_info P ticker_input = Returns info.
Hypothesis identified : dict_bool info = true.
Hypothesis rendered : snd (key_stock_metrics info) = Ok tt.
Hypothesis clock_range : timedelta 365 <= now <= datetime_max.

Lemma script_found_eq :
  script P now text_input submit_button period =
  (profile_part
     ++ fst (historical_price_chart P now ticker_input ticker_input
               (dict_get info "longName" (VStr ticker_input)) period),
   snd (historical_price_chart P now ticker_input ticker_input
          (dict_get info "longName" (VStr ticker_input)) period))%list.
Proof.
  rewrite (script_lookup_found P now text_input submit_button period
             entered info found identified).
  fold ticker_input. rewrite stock_page_eq by exact rendered.
  unfold profile_part. simpl. rewrite <- app_assoc. reflexivity.
Qed.


Lemma profile_part_no_banner : existsb is_error_banner profile_part = false.
Proof.
  unfold profile_part. rewrite !existsb_app.
  rewrite (page_elements_no_banner (fst (company_information ticker_input info)))
    by apply company_information_emits.
  rewrite (page_elements_no_banner (fst (key_stock_metrics info)))
    by apply key_stock_metrics_emits.
  reflexivity.
Qed.

Lemma profile_part_no_chart : chart_rows profile_part = 0%nat.
Proof.
  unfold profile_part. rewrite !chart_rows_app.
  rewrite (page_elements_no_chart (fst (company_information ticker_input info)))
    by apply company_information_emits.
  rewrite (page_elements_no_chart (fst (key_stock_metrics info)))
    by apply key_stock_metrics_emits.
  reflexivity.
Qed.

End Found.

(** *** Changing the period *)




(** *** Empty historical series *)

(** C5, as stated, fails: with an empty series for a known symbol the page
    shows an error banner. *)
Lemma no_data_is_an_error_banner :
  ~ existsb is_error_banner
      (fst (script Stub.no_rows Stub.clock "AAPL" true "1 Month")) = false.
Proof. vm_compute. discriminate. Qed.

(** C5, amended: for an entered symbol whose profile is found and rendered
    and whose historical lookup returns an empty series, the execution
    completes in the displaying state, not the failed one, with zero chart
    rows: the page is the profile part, free of error banners, followed by
    the historical heading, the period selector and the error banner
    "No historical data available for <symbol> over the selected time
    period.".  A failed historical lookup ends with the same banner, after one
    more banner that reports the exception. *)
Theorem empty_series_displays_profile (P : provider) (now : Z) (text_input : string)
    (submit_button : bool) (period : string) (info : gmap string value) :
  str_bool (upper text_input) = true ->
  ticker_info P (upper text_input) = Returns info ->
  dict_bool info = true ->
  snd (key_stock_metrics info) = Ok tt ->
  timedelta 365 <= now <= datetime_max ->
  ticker_history P (upper text_input) (now - timedelta (Spec.offset period)) now
    = Returns [] ->
  snd (script P now text_input submit_button period) = Ok tt /\
  reaches (upper text_input) (script P now text_input submit_button period)
    = Some Displaying /\
  chart_rows (fst (script P now text_input submit_button period)) = 0%nat /\
  (exists profile_part,
     existsb is_error_banner profile_part = false /\
     fst (script P now text_input submit_button period) =
       (profile_part
        ++ [StSubheader "Historical Price Chart";
            StSelectbox "Select Time Frame" time_periods period;
            HistoryLookup (upper text_input) (now - timedelta (Spec.offset period)) now;
            StError (no_data_message (upper text_input))])%list /\
     forall P' e,
       ticker_info P' (upper text_input) = Returns info ->
       ticker_history P' (upper text_input) (now - timedelta (Spec.offset period)) now
         = Raises e ->
       fst (script P' now text_input submit_button period) =
         (profile_part
          ++ [StSubheader "Historical Price Chart";
              StSelectbox "Select Time Frame" time_periods period;
              HistoryLookup (upper text_input) (now - timedelta (Spec.offset period)) now;
              StError ("Error fetching historical data: " +:+ e);
              StError (no_data_message (upper text_input))])%list).
Proof.
  intros Hentered Hfound Hidentified Hrendered Hclock Hrows.
  pose proof (profile_part_no_banner text_input info) as Hbanner.
  pose proof (profile_part_no_chart text_input info) as Hchart.
  cbv zeta in Hbanner, Hchart.
  pose proof (script_found_eq P now text_input submit_button period info
                Hentered Hfound Hidentified Hrendered) as Hrun.
  pose proof (fun P' Hfound' =>
                script_found_eq P' now text_input submit_button period info
                  Hentered Hfound' Hidentified Hrendered) as Hrun'.
  cbv zeta in Hrun, Hrun'.
  match type of Hbanner with
  | existsb _ ?l = _ => set (profile_part := l) in *
  end.
  rewrite Hrun.
  rewrite (chart_no_rows P now (upper text_input) period Hclock _ _ Hrows).
  cbn [fst snd].
  split; [reflexivity|]. split; [|split].
  - unfold reaches. rewrite !existsb_app.
    rewrite (no_banner_no_message _ _ Hbanner). simpl.
    rewrite orb_true_r. reflexivity.
  - rewrite chart_rows_app, Hchart. reflexivity.
  - exists profile_part. split; [exact Hbanner|]. split; [reflexivity|].
    intros P' e Hfound' Hraises.
    rewrite (Hrun' P' Hfound').
    rewrite (chart_lookup_failed P' now (upper text_input) period Hclock _ _ e Hraises).
    reflexivity.
Qed.

Lemma empty_series_displays_profile_witness :
  reaches "AAPL" (script Stub.no_rows Stub.clock "aapl" true "6 Months") = Some Displaying /\
  chart_rows (fst (script Stub.no_rows Stub.clock "aapl" true "6 Months")) = 0%nat.
Proof.
  destruct (empty_series_displays_profile Stub.no_rows Stub.clock "aapl" true
              "6 Months" Stub.profile) as (_ & Hstate & Hrows & _);
    try reflexivity.
  - vm_compute; split; discriminate.
  - split; assumption.
Defined.

(** *** The shape of formatted numbers *)

Lemma string_of_uint_digits (d : Decimal.uint) :
  Forall (fun c => is_digit c = true)
         (list_ascii_of_string (NilEmpty.string_of_uint d)).
Proof. induction d; simpl; constructor; auto. Qed.

Lemma str_of_N_digits (n : N) :
  str_of_N n <> "" /\
  Forall (fun c => is_digit c = true) (list_ascii_of_string (str_of_N n)).
Proof.
  unfold str_of_N, NilZero.string_of_uint.
  destruct (N.to_uint n) eqn:Hn;
    try (split; [discriminate | apply string_of_uint_digits]).
  split; [discriminate|]. repeat constructor.
Qed.

Lemma digit_char_is_digit (d : Z) : 0 <= d <= 9 -> is_digit (digit_char d) = true.
Proof.
  intros Hd.
  assert (Hcases : d = 0 \/ d = 1 \/ d = 2 \/ d = 3 \/ d = 4 \/ d = 5 \/ d = 6
                   \/ d = 7 \/ d = 8 \/ d = 9) by lia.
  repeat (destruct Hcases as [->|Hcases]; [reflexivity|]).
  subst d. reflexivity.
Qed.

Lemma fixed2_two_decimals (h : Z) : two_decimals (fixed2 h).
Proof.
  exists (str_of_N (Z.to_N (h / 100))),
         (digit_char (h / 10 mod 10)), (digit_char (h mod 10)).
  destruct (str_of_N_digits (Z.to_N (h / 100))) as [Hne Hdigits].
  repeat split; auto; apply digit_char_is_digit.
  - pose proof (Z.mod_pos_bound (h / 10) 10); lia.
  - pose proof (Z.mod_pos_bound h 10); lia.
Qed.

Lemma magnitude_2f_two_decimals (f : spec_float) :
  is_finite f = true -> two_decimals (magnitude_2f f).
Proof.
  destruct f; try discriminate; intros _; simpl.
  - exists "0", "0"%char, "0"%char. repeat split; try reflexivity; try discriminate.
    repeat constructor.
  - apply fixed2_two_decimals.
Qed.

(** A formatted float starts with a minus sign or with a digit (or is one of
    inf, nan): there is no plus sign. *)
Lemma format_2f_no_plus (f : spec_float) (rest : string) :
  format_2f f <> String "+" rest.
Proof.
  unfold format_2f. destruct f as [[]|[]| |[] m e]; try discriminate; simpl.
  - destruct (fixed2_two_decimals (hundredths m e)) as (whole & d1 & d2 & -> & Hne & Hd & _).
    destruct whole as [|c whole]; [contradiction|].
    inversion Hd as [|? ? Hc _]; subst. intros [= ->]. discriminate Hc.
Qed.

(** *** Binary64 rounding stays in range

    The rounding step of the standard library's [spec_float] operations,
    followed through its two normalisation shifts: a mantissa of [d] bits at
    exponent [e] with [d + e <= 1023] rounds to a finite double of the same
    sign, and not to zero unless it underflows. *)

Lemma digits2_pos_size (p : positive) : digits2_pos p = Pos.size p.
Proof. induction p; simpl; congruence. Qed.

Lemma Zdigits2_log2 (m : Z) : 0 < m -> Zdigits2 m = Z.log2 m + 1.
Proof.
  destruct m as [|p|p]; try lia. intros _. simpl.
  rewrite digits2_pos_size. destruct p; simpl; lia.
Qed.

Lemma Zdigits2_nonneg (m : Z) : 0 <= Zdigits2 m.
Proof. destruct m; simpl; lia. Qed.

Lemma Zdigits2_le (a b : Z) : 0 <= a <= b -> Zdigits2 a <= Zdigits2 b.
Proof.
  intros [Ha Hab]. destruct (Z.eq_dec a 0) as [->|Hne].
  - apply Zdigits2_nonneg.
  - rewrite !Zdigits2_log2 by lia. pose proof (Z.log2_le_mono a b Hab). lia.
Qed.

Lemma Zdigits2_succ (a : Z) : 0 <= a -> Zdigits2 (a + 1) <= Zdigits2 a + 1.
Proof.
  intros Ha. destruct (Z.eq_dec a 0) as [->|Hne]; [simpl; lia|].
  rewrite !Zdigits2_log2 by lia.
  pose proof (Z.log2_succ_le a). unfold Z.succ in *. lia.
Qed.

Lemma Zdigits2_bound (a k : Z) : 0 <= k -> 0 <= a < 2 ^ k -> Zdigits2 a <= k.
Proof.
  intros Hk [Ha Hlt]. destruct (Z.eq_dec a 0) as [->|Hne]; [simpl; lia|].
  rewrite Zdigits2_log2 by lia.
  apply Z.log2_lt_pow2 in Hlt; lia.
Qed.

Lemma shr_1_spec (r : shr_record) :
  0 <= shr_m r ->
  0 <= shr_m (shr_1 r) /\ Zdigits2 (shr_m (shr_1 r)) = Z.max 0 (Zdigits2 (shr_m r) - 1).
Proof.
  destruct r as [m r s]. simpl. destruct m as [|[p|p|]|p]; simpl; try lia.
Qed.

Lemma iter_shr_1_spec (n : positive) :
  forall r, 0 <= shr_m r ->
  0 <= shr_m (SpecFloat.iter_pos shr_1 n r) /\
  Zdigits2 (shr_m (SpecFloat.iter_pos shr_1 n r)) = Z.max 0 (Zdigits2 (shr_m r) - Zpos n).
Proof.
  induction n as [n IH|n IH|]; intros r Hr; simpl.
  - destruct (shr_1_spec r Hr) as [H1 D1].
    destruct (IH _ H1) as [H2 D2]. destruct (IH _ H2) as [H3 D3].
    split; [exact H3|]. rewrite D3, D2, D1. lia.
  - destruct (IH _ Hr) as [H2 D2]. destruct (IH _ H2) as [H3 D3].
    split; [exact H3|]. rewrite D3, D2. lia.
  - apply shr_1_spec, Hr.
Qed.

Lemma fexp_eq (d : Z) : fexp prec emax d = fexp64 d.
Proof. reflexivity. Qed.

Lemma shr_record_of_loc_m (m : Z) (l : location) : shr_m (shr_record_of_loc m l) = m.
Proof. destruct l as [|[]]; reflexivity. Qed.

Lemma shr_fexp_spec (m e : Z) (l : location) :
  0 <= m ->
  let n := fexp64 (Zdigits2 m + e) - e in
  0 <= shr_m (fst (shr_fexp prec emax m e l)) /\
  snd (shr_fexp prec emax m e l) = e + Z.max 0 n /\
  Zdigits2 (shr_m (fst (shr_fexp prec emax m e l)))
  = Z.max 0 (Zdigits2 m - Z.max 0 n).
Proof.
  intros Hm n. unfold shr_fexp, shr. rewrite fexp_eq. fold n.
  pose proof (shr_record_of_loc_m m l) as Hrec.
  pose proof (Zdigits2_nonneg m) as Hd.
  destruct n as [|k|k] eqn:Hn; cbn [fst snd].
  - rewrite Hrec. lia.
  - destruct (iter_shr_1_spec k (shr_record_of_loc m l)) as [Hpos Hdig];
      [rewrite Hrec; exact Hm|].
    rewrite Hdig, Hrec. lia.
  - rewrite Hrec. lia.
Qed.

Lemma round_nearest_even_spec (m : Z) (l : location) :
  0 <= m -> m <= round_nearest_even m l <= m + 1.
Proof.
  intros Hm. destruct l as [|[]]; simpl; try lia. destruct (Z.even m); lia.
Qed.

Lemma Zdigits2_pos (m : Z) : 0 < Zdigits2 m -> m <> 0.
Proof. intros Hd ->. simpl in Hd. lia. Qed.

Lemma binary_round_aux_finite (s : bool) (m e : Z) (l : location) :
  0 <= m -> e <= 971 -> Zdigits2 m + e <= 1023 ->
  is_finite (binary_round_aux prec emax s m e l) = true /\
  sign_bit (binary_round_aux prec emax s m e l) = s /\
  (0 < m -> -1074 < Zdigits2 m + e ->
   is_zero (binary_round_aux prec emax s m e l) = false).
Proof.
  intros Hm He Hd. unfold binary_round_aux.
  destruct (shr_fexp_spec m e l Hm) as (Hm1 & He1 & Hd1).
  destruct (shr_fexp prec emax m e l) as [r1 e1]. cbn [fst snd] in *.
  set (m2 := round_nearest_even (shr_m r1) (loc_of_shr_record r1)).
  pose proof (round_nearest_even_spec (shr_m r1) (loc_of_shr_record r1) Hm1) as Hm2.
  fold m2 in Hm2.
  assert (Hd2 : Zdigits2 (shr_m r1) <= Zdigits2 m2 <= Zdigits2 (shr_m r1) + 1).
  { split; [apply Zdigits2_le; lia|].
    etransitivity; [apply (Zdigits2_le m2 (shr_m r1 + 1)); lia|].
    apply Zdigits2_succ, Hm1. }
  destruct (shr_fexp_spec m2 e1 loc_Exact ltac:(lia)) as (Hm3 & He3 & Hd3).
  destruct (shr_fexp prec emax m2 e1 loc_Exact) as [r3 e3]. cbn [fst snd] in *.
  pose proof (Zdigits2_nonneg m) as Hdm.
  assert (He3' : e3 <= 971) by (unfold fexp64 in *; lia).
  assert (Hnz : 0 < m -> -1074 < Zdigits2 m + e -> shr_m r3 <> 0).
  { intros Hpos Hlow. apply Zdigits2_pos.
    assert (0 < Zdigits2 m) by (rewrite Zdigits2_log2 by lia; pose proof (Z.log2_nonneg m); lia).
    unfold fexp64 in *. lia. }
  destruct (shr_m r3) as [|p|p]; [| |lia].
  - repeat split; try reflexivity. intros Hpos Hlow. destruct (Hnz Hpos Hlow eq_refl).
  - replace (e3 <=? emax - prec) with true; [repeat split; reflexivity|].
    symmetry. apply Z.leb_le. unfold emax, prec. lia.
Qed.

Lemma digits2_pos_iter_xO (m d : positive) :
  Zpos (digits2_pos (Pos.iter xO m d)) = Zpos (digits2_pos m) + Zpos d.
Proof.
  induction d as [|d IH] using Pos.peano_ind.
  - simpl. lia.
  - rewrite Pos.iter_succ. simpl digits2_pos. lia.
Qed.

Lemma shl_align_spec (m : positive) (e e' : Z) :
  snd (shl_align m e e') <= e /\
  Zdigits2 (Zpos (fst (shl_align m e e'))) + snd (shl_align m e e')
  = Zdigits2 (Zpos m) + e.
Proof.
  unfold shl_align. destruct (e' - e) as [|d|d] eqn:Hd; cbn [fst snd]; try lia.
  simpl Zdigits2. rewrite digits2_pos_iter_xO. lia.
Qed.

Lemma binary_round_finite (s : bool) (m : positive) :
  Zpos m < 2 ^ 1023 ->
  is_finite (binary_round prec emax s m 0) = true /\
  sign_bit (binary_round prec emax s m 0) = s /\
  is_zero (binary_round prec emax s m 0) = false.
Proof.
  intros Hm. unfold binary_round.
  destruct (shl_align_spec m 0 (fexp prec emax (Zpos (digits2_pos m) + 0)))
    as [He Hd].
  destruct (shl_align m 0 _) as [mz ez]. cbn [fst snd] in *.
  assert (Zdigits2 (Zpos m) <= 1023) by (apply Zdigits2_bound; lia).
  pose proof (Zdigits2_nonneg (Zpos m)).
  destruct (binary_round_aux_finite s (Zpos mz) ez loc_Exact) as (Hfin & Hsign & Hnz);
    try lia.
  repeat split; auto. apply Hnz; lia.
Qed.

Lemma nearest_float_finite (z : Z) :
  Z.abs z < 2 ^ 1023 ->
  is_finite (nearest_float z) = true /\ sign_bit (nearest_float z) = (z <? 0) /\
  (z <> 0 -> is_zero (nearest_float z) = false).
Proof.
  intros Hz. destruct z as [|m|m].
  - repeat split; try reflexivity. contradiction.
  - destruct (binary_round_finite false m) as (Hfin & Hsign & Hnz); [lia|].
    repeat split; auto.
  - destruct (binary_round_finite true m) as (Hfin & Hsign & Hnz); [lia|].
    repeat split; auto.
Qed.

Lemma float_of_int_in_range (z : Z) :
  Z.abs z < 2 ^ 1023 ->
  float_of_int z = Ok (nearest_float z).
Proof.
  intros Hz. unfold float_of_int.
  destruct (nearest_float_finite z Hz) as (Hfin & _).
  destruct (nearest_float z); try discriminate Hfin; reflexivity.
Qed.

Lemma div_core_spec (m1 m2 : positive) :
  let '(q, e, _) := SFdiv_core_binary prec emax (Zpos m1) 0 (Zpos m2) 0 in
  0 <= q /\ e <= 0 /\ Zdigits2 q + e <= Zdigits2 (Zpos m1).
Proof.
  unfold SFdiv_core_binary.
  set (e := Z.min (fexp prec emax (Zdigits2 (Zpos m1) + 0 - (Zdigits2 (Zpos m2) + 0))) (0 - 0)).
  assert (He : e <= 0) by (unfold e; lia).
  set (m' := match 0 - 0 - e with
             | Z0 => Zpos m1
             | Zpos _ => Z.shiftl (Zpos m1) (0 - 0 - e)
             | Zneg _ => 0
             end).
  assert (Hm' : 0 <= m' /\ Zdigits2 m' + e <= Zdigits2 (Zpos m1)).
  { unfold m'. destruct (0 - 0 - e) as [|s|s] eqn:Hs; try lia.
    rewrite Z.shiftl_mul_pow2 by lia.
    assert (0 < 2 ^ Zpos s) by (apply Z.pow_pos_nonneg; lia).
    split; [lia|].
    rewrite !Zdigits2_log2 by lia.
    rewrite <- Z.shiftl_mul_pow2 by lia.
    rewrite Z.log2_shiftl by lia. lia. }
  destruct (Z.div_eucl m' (Zpos m2)) as [q r] eqn:Hdiv.
  assert (Hq : q = m' / Zpos m2) by (unfold Z.div; rewrite Hdiv; reflexivity).
  assert (0 <= q <= m').
  { subst q. split; [apply Z.div_pos; lia|].
    apply Z.div_le_upper_bound; nia. }
  split; [lia|]. split; [exact He|].
  pose proof (Zdigits2_le q m'). lia.
Qed.

Lemma int_truediv_in_range (x y : Z) :
  Z.abs x < 2 ^ 1023 -> y <> 0 ->
  exists q, int_truediv x y = Ok q /\ is_finite q = true /\
            sign_bit q = xorb (x <? 0) (y <? 0).
Proof.
  intros Hx Hy. unfold int_truediv.
  destruct (Z.eqb_spec y 0) as [|_]; [contradiction|].
  assert (Hq : is_finite (fdiv (exact_of_int x) (exact_of_int y)) = true /\
               sign_bit (fdiv (exact_of_int x) (exact_of_int y))
               = xorb (x <? 0) (y <? 0)).
  { destruct x as [|mx|mx], y as [|my|my]; try contradiction;
      try (split; reflexivity);
      unfold fdiv, exact_of_int, SFdiv;
      pose proof (div_core_spec mx my) as Hcore;
      destruct (SFdiv_core_binary prec emax (Zpos mx) 0 (Zpos my) 0) as [[q e] l];
      destruct Hcore as (Hq & He & Hd);
      assert (Zdigits2 (Zpos mx) <= 1023) by (apply Zdigits2_bound; lia);
      (destruct (binary_round_aux_finite (xorb false false) q e l) as (? & ? & _);
       [lia..|]);
      (destruct (binary_round_aux_finite (xorb false true) q e l) as (? & ? & _);
       [lia..|]);
      split; assumption. }
  destruct Hq as [Hfin Hsign].
  exists (fdiv (exact_of_int x) (exact_of_int y)).
  split; [|split; assumption].
  destruct (fdiv (exact_of_int x) (exact_of_int y)); try discriminate Hfin; reflexivity.
Qed.

(** *** The price delta *)

Lemma dict_read (info : gmap string value) (key : string) (v d : value) :
  info !! key = Some v -> dict_in key info = true /\ dict_get info key d = v.
Proof.
  intros Hv. unfold dict_in, dict_get. rewrite Hv. split; reflexivity.
Qed.

Lemma price_delta_absent (current_price : value) (info : gmap string value) :
  info !! "previousClose" = None -> price_delta current_price info = Ok None.
Proof.
  intros Hv. unfold price_delta, dict_in. rewrite Hv. reflexivity.
Qed.

(** Division of numbers in range by a non-zero number returns a float. *)
Lemma truediv_total (a b : value) :
  number_in_range a -> number_in_range b -> truthy b = true ->
  exists q, truediv a b = Ok q.
Proof.
  intros Ha Hb Hnz.
  destruct a as [|x|f|], b as [|y|g|]; try contradiction; simpl in *.
  - destruct (Z.eqb_spec y 0) as [|Hy]; [discriminate Hnz|].
    destruct (int_truediv_in_range x y Ha Hy) as (q & Hq & _). eauto.
  - rewrite float_of_int_in_range by exact Ha. simpl.
    unfold float_div. destruct (is_zero g); [discriminate Hnz|]. eauto.
  - destruct (Z.eqb_spec y 0) as [|Hy]; [discriminate Hnz|].
    rewrite float_of_int_in_range by exact Hb. simpl.
    destruct (nearest_float_finite y Hb) as (_ & _ & Hzero).
    unfold float_div. rewrite (Hzero Hy). eauto.
  - unfold float_div. destruct (is_zero g); [discriminate Hnz|]. eauto.
Qed.

(** C1 (defect of the code): with a previous close of zero the delta
    expression divides by zero: for the profile with current price 100 and
    previous close 0 the delta is not omitted, the expression raises
    ZeroDivisionError, and the page stops with that exception right after the
    "Key Stock Metrics" heading. *)
Theorem zero_previous_close_raises :
  price_delta (VInt 100) Stub.flat_profile = Raise ZeroDivisionError /\
  price_delta (VFloat (nearest_float 100))
    (<["previousClose" := VFloat (S754_zero false)]> Stub.flat_profile)
  = Raise ZeroDivisionError /\
  script Stub.flat Stub.clock "AAPL" true "1 Month" =
    ([StMarkdown [Lit "###"]; StSpinner "Fetching data for AAPL...";
      ProfileLookup "AAPL"; StSubheader "Company Information";
      StMarkdown [Lit "### "; Lit "Apple Inc."]; StMarkdown [Lit "---"];
      StSubheader "Key Stock Metrics"], Raise ZeroDivisionError).
Proof. repeat split; vm_compute; reflexivity. Qed.

(** C8, as stated, fails: for 101 against a previous close of 100 the delta
    string is not "+1.00%". *)
Lemma percent_change_has_no_plus :
  price_delta (VInt 101) Stub.profile <> Ok (Some "+1.00%").
Proof. vm_compute. discriminate. Qed.

(** C8, amended: for every current price and non-zero previous close
    (numbers within the range of doubles) the delta string is produced: it is
    the two-decimal rendering of [((current / previous) - 1) * 100] followed
    by a percent sign, with a minus sign when that value has its sign bit set
    and no sign otherwise; it never starts with a plus sign.  For 101 against
    100 it is "1.00%". *)
Theorem percent_change_minus_only :
  (forall (current previous : value) (info : gmap string value),
     number_in_range current -> number_in_range previous ->
     truthy previous = true ->
     info !! "previousClose" = Some previous ->
     exists q,
       truediv current previous = Ok q /\
       let change := fmul (fsub q (nearest_float 1)) (nearest_float 100) in
       price_delta current info
       = Ok (Some (sign_str (sign_bit change) +:+ magnitude_2f change +:+ "%")) /\
       (is_finite change = true -> two_decimals (magnitude_2f change)) /\
       (forall rest,
          sign_str (sign_bit change) +:+ magnitude_2f change +:+ "%"
          <> String "+" rest)) /\
  price_delta (VInt 101) Stub.profile = Ok (Some "1.00%").
Proof.
  split; [|vm_compute; reflexivity].
  intros current previous info Hcurrent Hprevious Hnz Hinfo.
  destruct (truediv_total current previous Hcurrent Hprevious Hnz) as [q Hq].
  exists q. split; [exact Hq|]. intros change.
  destruct (dict_read info "previousClose" previous current Hinfo) as [Hin Hget].
  assert (Hassoc : forall (s : bool) (m : string),
            sign_str s +:+ m +:+ "%" = (sign_str s +:+ m) +:+ "%")
    by (intros [] m; reflexivity).
  split; [|split].
  - unfold price_delta. rewrite Hin, Hget, Hq. simpl. fold change.
    unfold format_2f. rewrite Hassoc. reflexivity.
  - apply magnitude_2f_two_decimals.
  - intros rest Hplus. rewrite Hassoc in Hplus. fold (format_2f change) in Hplus.
    destruct (format_2f change) as [|c s] eqn:Hs; [discriminate Hplus|].
    simpl in Hplus. injection Hplus as -> _.
    exact (format_2f_no_plus change s Hs).
Qed.

Lemma percent_change_minus_only_witness :
  exists q,
    truediv (VInt 99) (VInt 100) = Ok q /\
    price_delta (VInt 99)
      (<["previousClose" := VInt 100]> (∅ : gmap string value))
    = Ok (Some "-1.00%").
Proof.
  destruct percent_change_minus_only as [Hdelta _].
  destruct (Hdelta (VInt 99) (VInt 100)
                   (<["previousClose" := VInt 100]> (∅ : gmap string value)))
    as (q & Hq & Hprice & _); try reflexivity.
  exists q. split; [exact Hq|]. rewrite Hprice.
  vm_compute in Hq. injection Hq as <-. vm_compute. reflexivity.
Defined.

(** *** Large numbers *)

Lemma format_large_number_int_refines (z : Z) :
  format_large_number (VInt z) = Spec.formatLargeNumber (VInt z).
Proof.
  unfold format_large_number, Spec.formatLargeNumber, Spec.largest_applicable,
    Spec.suffixes, Spec.applicable, ge_int.
  cbn [List.filter snd rbind].
  change (10 ^ 12) with 1000000000000. change (10 ^ 9) with 1000000000.
  change (10 ^ 6) with 1000000. change (10 ^ 3) with 1000.
  destruct (1000000000000 <=? z), (1000000000 <=? z), (1000000 <=? z), (1000 <=? z);
    reflexivity.
Qed.

Lemma format_large_number_float_refines (f : spec_float) :
  format_large_number (VFloat f) = Spec.formatLargeNumber (VFloat f).
Proof.
  unfold format_large_number, Spec.formatLargeNumber, Spec.largest_applicable,
    Spec.suffixes, Spec.applicable, ge_int.
  cbn [List.filter snd rbind].
  change (10 ^ 12) with 1000000000000. change (10 ^ 9) with 1000000000.
  change (10 ^ 6) with 1000000. change (10 ^ 3) with 1000.
  destruct (SFleb (nearest_float 1000000000000) f),
           (SFleb (nearest_float 1000000000) f),
           (SFleb (nearest_float 1000000) f),
           (SFleb (nearest_float 1000) f); reflexivity.
Qed.

(** A positive integer in range divided by a positive scale: an unsigned
    two-decimal string. *)
Lemma scaled_two_decimals (z scale : Z) :
  0 <= z < 2 ^ 1023 -> 0 < scale ->
  exists q, truediv (VInt z) (VInt scale) = Ok q /\
            exists body, format_2f q = body /\ two_decimals body.
Proof.
  intros Hz Hscale. simpl.
  destruct (int_truediv_in_range z scale) as (q & Hq & Hfin & Hsign); try lia.
  exists q. split; [exact Hq|]. exists (magnitude_2f q).
  split; [|apply magnitude_2f_two_decimals, Hfin].
  unfold format_2f. rewrite Hsign.
  replace (z <? 0) with false by (symmetry; apply Z.ltb_ge; lia).
  replace (scale <? 0) with false by (symmetry; apply Z.ltb_ge; lia).
  reflexivity.
Qed.

Lemma plain_two_decimals (z : Z) :
  Z.abs z < 2 ^ 1023 ->
  exists body, two_decimals body /\
    format_spec_2f (VInt z) = Ok (sign_str (z <? 0) +:+ body).
Proof.
  intros Hz. simpl. rewrite float_of_int_in_range by exact Hz. simpl.
  destruct (nearest_float_finite z Hz) as (Hfin & Hsign & _).
  exists (magnitude_2f (nearest_float z)).
  split; [apply magnitude_2f_two_decimals, Hfin|].
  unfold format_2f. rewrite Hsign. reflexivity.
Qed.

Lemma append_empty_r (s : string) : s +:+ "" = s.
Proof.
  induction s as [|c s IH]; [reflexivity|].
  change (String c (s +:+ "") = String c s). rewrite IH. reflexivity.
Qed.

Lemma format_large_number_int (z : Z) :
  Z.abs z < 2 ^ 1023 ->
  exists body, two_decimals body /\
    format_large_number (VInt z)
    = Ok ("$" +:+ sign_str (z <? 0) +:+ body +:+ Spec.suffix_for (VInt z)).
Proof.
  intros Hz. rewrite format_large_number_int_refines.
  unfold Spec.formatLargeNumber, Spec.suffix_for, Spec.largest_applicable,
    Spec.suffixes, Spec.applicable, ge_int.
  cbn [List.filter snd].
  change (10 ^ 12) with 1000000000000. change (10 ^ 9) with 1000000000.
  change (10 ^ 6) with 1000000. change (10 ^ 3) with 1000.
  assert (Hscaled : forall scale suffix, 0 < scale -> 1000 <= z ->
            exists body, two_decimals body /\
              (q <-! truediv (VInt z) (VInt scale); Ok ("$" +:+ format_2f q +:+ suffix))
              = Ok ("$" +:+ sign_str (z <? 0) +:+ body +:+ suffix)).
  { intros scale suffix Hscale Hlarge.
    destruct (scaled_two_decimals z scale) as (q & Hq & body & Hbody & Htwo); try lia.
    exists body. split; [exact Htwo|]. rewrite Hq. cbn [rbind]. rewrite Hbody.
    replace (z <? 0) with false by (symmetry; apply Z.ltb_ge; lia).
    reflexivity. }
  destruct (Z.leb_spec 1000000000000 z), (Z.leb_spec 1000000000 z),
           (Z.leb_spec 1000000 z), (Z.leb_spec 1000 z);
    try lia; cbn [fold_left Spec.larger snd fst Z.ltb Z.compare Pos.compare
                  Pos.compare_cont];
    try (apply Hscaled; lia).
  destruct (plain_two_decimals z Hz) as (body & Htwo & Hplain).
  exists body. split; [exact Htwo|]. rewrite Hplain. cbn [rbind].
  rewrite append_empty_r. reflexivity.
Qed.

Ltac eval_scales :=
  repeat match goal with
         | |- context [nearest_float (Zpos ?k)] =>
             let c := eval vm_compute in (nearest_float (Zpos k)) in
             change (nearest_float (Zpos k)) with c
         end.

Lemma format_large_number_float (f : spec_float) :
  exists s, format_large_number (VFloat f) = Ok s.
Proof.
  unfold format_large_number, ge_int, truediv, float_of_int. cbn [rbind].
  eval_scales. cbn [is_infinity rbind]. unfold float_div. cbn [is_zero].
  destruct (SFleb _ f); [eexists; reflexivity|].
  destruct (SFleb _ f); [eexists; reflexivity|].
  destruct (SFleb _ f); [eexists; reflexivity|].
  destruct (SFleb _ f); eexists; reflexivity.
Qed.

(** C4: the formatter returns "N/A" for [None]; on every number it is the
    specification's formatter (the largest applicable suffix among T, B, M, K,
    two decimals of the scaled number, currency prefix; plain currency below
    every scale); it returns a string for every float and for every integer
    within the range of doubles, and for such an integer the string is the
    currency sign, a minus sign if negative, digits with exactly two
    decimals, and the suffix, none below 1000.  2500000000 gives "$2.50B" and
    999 gives "$999.00". *)
Theorem format_large_number_total :
  format_large_number VNone = Ok "N/A" /\
  (forall z, format_large_number (VInt z) = Spec.formatLargeNumber (VInt z)) /\
  (forall f, format_large_number (VFloat f) = Spec.formatLargeNumber (VFloat f)) /\
  (forall z, Z.abs z < 2 ^ 1023 ->
     exists body, two_decimals body /\
       format_large_number (VInt z)
       = Ok ("$" +:+ sign_str (z <? 0) +:+ body +:+ Spec.suffix_for (VInt z))) /\
  (forall z, z < 1000 -> Spec.suffix_for (VInt z) = "") /\
  (forall f, exists s, format_large_number (VFloat f) = Ok s) /\
  format_large_number (VInt 2500000000) = Ok "$2.50B" /\
  format_large_number (VInt 999) = Ok "$999.00".
Proof.
  split; [reflexivity|].
  split; [exact format_large_number_int_refines|].
  split; [exact format_large_number_float_refines|].
  split; [exact format_large_number_int|].
  split; [|split; [exact format_large_number_float | split; vm_compute; reflexivity]].
  intros z Hz.
  unfold Spec.suffix_for, Spec.largest_applicable, Spec.suffixes, Spec.applicable, ge_int.
  cbn [List.filter snd].
  change (10 ^ 12) with 1000000000000. change (10 ^ 9) with 1000000000.
  change (10 ^ 6) with 1000000. change (10 ^ 3) with 1000.
  destruct (Z.leb_spec 1000000000000 z), (Z.leb_spec 1000000000 z),
           (Z.leb_spec 1000000 z), (Z.leb_spec 1000 z); try lia.
  reflexivity.
Qed.

Lemma format_large_number_total_witness :
  exists body, two_decimals body /\
    format_large_number (VInt 1500000) = Ok ("$" +:+ body +:+ "M").
Proof.
  destruct format_large_number_total as (_ & _ & _ & Hint & _).
  apply (Hint 1500000). vm_compute. reflexivity.
Defined.

(** C10: a negative number never gets a suffix, whatever its magnitude: the
    formatter takes the plain-currency branch, so a negative integer (within
    the range of doubles) gives the currency sign, a minus sign and digits
    with exactly two decimals, and a negative float the currency sign, a
    minus sign and its two-decimal digits; -2000000000 gives
    "$-2000000000.00". *)
Theorem negative_number_plain_currency :
  (forall z, z < 0 ->
     format_large_number (VInt z)
     = (s <-! format_spec_2f (VInt z); Ok ("$" +:+ s))) /\
  (forall z, z < 0 -> Z.abs z < 2 ^ 1023 ->
     exists body, two_decimals body /\
       format_large_number (VInt z) = Ok ("$-" +:+ body)) /\
  (forall f, SFltb f (S754_zero false) = true ->
     format_large_number (VFloat f) = Ok ("$-" +:+ magnitude_2f f)) /\
  format_large_number (VInt (-2000000000)) = Ok "$-2000000000.00".
Proof.
  assert (Hplain : forall z, z < 0 ->
            format_large_number (VInt z)
            = (s <-! format_spec_2f (VInt z); Ok ("$" +:+ s))).
  { intros z Hz. unfold format_large_number, ge_int. cbn [rbind].
    destruct (Z.leb_spec 1000000000000 z), (Z.leb_spec 1000000000 z),
             (Z.leb_spec 1000000 z), (Z.leb_spec 1000 z); try lia.
    reflexivity. }
  split; [exact Hplain|]. split; [|split; [|vm_compute; reflexivity]].
  - intros z Hz Hrange. rewrite (Hplain z Hz).
    destruct (plain_two_decimals z Hrange) as (body & Htwo & Hfmt).
    exists body. split; [exact Htwo|]. rewrite Hfmt.
    replace (z <? 0) with true by (symmetry; apply Z.ltb_lt; exact Hz).
    reflexivity.
  - intros f Hneg. unfold format_large_number, ge_int. cbn [rbind]. eval_scales.
    destruct f as [s|[]| |[] m e]; try discriminate Hneg; reflexivity.
Qed.

Lemma negative_number_plain_currency_witness :
  format_large_number (VInt (-5000000))
  = (s <-! format_spec_2f (VInt (-5000000)); Ok ("$" +:+ s)) /\
  format_large_number (VFloat (S754_infinity true)) = Ok "$-inf".
Proof.
  destruct negative_number_plain_currency as (Hint & _ & Hfloat & _).
  split; [apply Hint; lia | apply Hfloat; reflexivity].
Defined.

(** ** Further properties of the code *)

(** *** The historical lookup wraps every failure *)

(** X1: [get_historical_data] never lets an exception out: it always returns,
    with at most one provider call; it returns [None] exactly when it has
    shown one "Error fetching historical data" banner, and a frame exactly
    when it has shown none. *)
Theorem get_historical_data_catches (P : provider) (now : Z) (ticker period : string) :
  exists hist_data,
    snd (get_historical_data P now ticker period) = Ok hist_data /\
    (length (provider_calls (fst (get_historical_data P now ticker period))) <= 1)%nat /\
    (hist_data = None <->
     exists e, In (StError ("Error fetching historical data: " +:+ e))
                  (fst (get_historical_data P now ticker period))) /\
    (is_Some hist_data <->
     existsb is_error_banner (fst (get_historical_data P now ticker period)) = false).
Proof.
  unfold get_historical_data.
  set (start := if String.eqb period "1 Week" then _ else _).
  destruct start as [start_date|e].
  - destruct (ticker_history P ticker start_date now) as [rows|e] eqn:Hrows.
    + exists (Some rows). cbn. unfold provider_calls. cbn.
      repeat split; try discriminate; eauto.
      intros [e [Hin|[]]]. discriminate Hin.
    + exists None. cbn. unfold provider_calls. cbn.
      repeat split; eauto; try discriminate.
      intros [x Hx]. discriminate Hx.
  - exists None. cbn. repeat split; eauto; try discriminate.
    intros [x Hx]. discriminate Hx.
Qed.

(** X2: when the clock is less than the period's offset after
    [datetime.min], the subtraction overflows inside the [try]: no provider
    call is made, the banner reads "date value out of range" and [None] is
    returned. *)
Theorem get_historical_data_clock_underflow (P : provider) (now : Z)
    (ticker period : string) :
  now < timedelta (Spec.offset period) ->
  get_historical_data P now ticker period =
  ([StError "Error fetching historical data: date value out of range"], Ok None).
Proof.
  intros Hearly. unfold get_historical_data.
  assert (Hsel :
    (if String.eqb period "1 Week" then datetime_sub now (timedelta 7)
     else if String.eqb period "1 Month" then datetime_sub now (timedelta 30)
     else if String.eqb period "6 Months" then datetime_sub now (timedelta 180)
     else if String.eqb period "1 Year" then datetime_sub now (timedelta 365)
     else datetime_sub now (timedelta 30))
    = datetime_sub now (timedelta (Spec.offset period))).
  { unfold Spec.offset; simpl.
    repeat match goal with
           | |- context [String.eqb period ?s] => destruct (String.eqb period s); simpl
           end; reflexivity. }
  rewrite Hsel. unfold datetime_sub.
  replace (0 <=? now - timedelta (Spec.offset period)) with false
    by (symmetry; apply Z.leb_gt; lia).
  reflexivity.
Qed.

Lemma get_historical_data_clock_underflow_witness :
  get_historical_data Stub.no_rows (timedelta 100) "AAPL" "1 Year" =
  ([StError "Error fetching historical data: date value out of range"], Ok None).
Proof.
  apply get_historical_data_clock_underflow. vm_compute. reflexivity.
Defined.

(** *** The metrics *)

(** The metrics section is its six value expressions in sequence: the first
    that raises ends the section. *)
Lemma key_stock_metrics_eq (info : gmap string value) :
  key_stock_metrics info =
  (emit (StSubheader "Key Stock Metrics");;
   price ← lift (current_price_metric info);
   emit price;;
   previous_close ← lift (previous_close_value info);
   emit (StMetric "Previous Close" [Lit previous_close] None);;
   market_cap ← lift (market_cap_value info);
   emit (StMetric "Market Cap" [Lit market_cap] None);;
   volume ← lift (volume_value info);
   emit (StMetric "Volume" volume None);;
   pe_ratio ← lift (pe_ratio_value info);
   emit (StMetric "P/E Ratio" [Lit pe_ratio] None);;
   range ← lift (week_range_value info);
   emit (StMetric "52 Week Range" [Lit range] None);;
   emit (StMarkdown [Lit "---"])).
Proof.
  unfold key_stock_metrics, current_price_metric, previous_close_value,
    market_cap_value, volume_value, pe_ratio_value, week_range_value.
  destruct (ne_str (dict_get info "currentPrice" (VStr "N/A")) "N/A");
    [|rewrite bind_lift_ok; reflexivity].
  destruct (format_spec_2f (dict_get info "currentPrice" (VStr "N/A")));
    [|reflexivity].
  destruct (price_delta _ info); [|reflexivity].
  cbn [rbind]. rewrite !bind_lift_ok. reflexivity.
Qed.

Lemma key_stock_metrics_ok (info : gmap string value) (price : event)
    (previous_close market_cap pe_ratio range : string) (volume : text) :
  current_price_metric info = Ok price ->
  previous_close_value info = Ok previous_close ->
  market_cap_value info = Ok market_cap ->
  volume_value info = Ok volume ->
  pe_ratio_value info = Ok pe_ratio ->
  week_range_value info = Ok range ->
  key_stock_metrics info =
  ([StSubheader "Key Stock Metrics"; price;
    StMetric "Previous Close" [Lit previous_close] None;
    StMetric "Market Cap" [Lit market_cap] None;
    StMetric "Volume" volume None;
    StMetric "P/E Ratio" [Lit pe_ratio] None;
    StMetric "52 Week Range" [Lit range] None;
    StMarkdown [Lit "---"]], Ok tt).
Proof.
  intros H1 H2 H3 H4 H5 H6. rewrite key_stock_metrics_eq.
  rewrite H1, H2, H3, H4, H5, H6. reflexivity.
Qed.

Lemma key_stock_metrics_raise (info : gmap string value) (e : exn) :
  snd (key_stock_metrics info) = Raise e ->
  current_price_metric info = Raise e \/ previous_close_value info = Raise e \/
  market_cap_value info = Raise e \/ volume_value info = Raise e \/
  pe_ratio_value info = Raise e \/ week_range_value info = Raise e.
Proof.
  rewrite key_stock_metrics_eq.
  destruct (current_price_metric info); [|cbn; intros [= ->]; tauto].
  destruct (previous_close_value info); [|cbn; intros [= ->]; tauto].
  destruct (market_cap_value info); [|cbn; intros [= ->]; tauto].
  destruct (volume_value info); [|cbn; intros [= ->]; tauto].
  destruct (pe_ratio_value info); [|cbn; intros [= ->]; tauto].
  destruct (week_range_value info); [|cbn; intros [= ->]; tauto].
  cbn. discriminate.
Qed.

Lemma dict_absent (info : gmap string value) (key : string) (d : value) :
  info !! key = None ->
  dict_in key info = false /\ dict_get info key d = d /\
  dict_in_and_truthy key info = false.
Proof.
  intros Hv. unfold dict_in, dict_get, dict_in_and_truthy. rewrite Hv.
  repeat split; reflexivity.
Qed.

(** X3: every metric has a fallback for a missing key: for a profile with
    none of the seven numeric keys the section completes and shows "N/A"
    six times, without a delta. *)
Theorem key_stock_metrics_missing_keys (info : gmap string value) :
  (forall key, In key numeric_keys -> info !! key = None) ->
  key_stock_metrics info =
  ([StSubheader "Key Stock Metrics";
    StMetric "Current Price" [Lit "N/A"] None;
    StMetric "Previous Close" [Lit "N/A"] None;
    StMetric "Market Cap" [Lit "N/A"] None;
    StMetric "Volume" [Lit "N/A"] None;
    StMetric "P/E Ratio" [Lit "N/A"] None;
    StMetric "52 Week Range" [Lit "N/A"] None;
    StMarkdown [Lit "---"]], Ok tt).
Proof.
  intros Habsent.
  assert (Hkey : forall key d, In key numeric_keys ->
            dict_in key info = false /\ dict_get info key d = d /\
            dict_in_and_truthy key info = false)
    by (intros key d Hin; apply dict_absent, Habsent, Hin).
  apply key_stock_metrics_ok.
  - unfold current_price_metric.
    destruct (Hkey "currentPrice" (VStr "N/A")) as (_ & -> & _); [simpl; tauto|].
    reflexivity.
  - unfold previous_close_value.
    destruct (Hkey "previousClose" VNone) as (-> & _); [simpl; tauto|]. reflexivity.
  - unfold market_cap_value.
    destruct (Hkey "marketCap" VNone) as (_ & -> & _); [simpl; tauto|]. reflexivity.
  - unfold volume_value.
    destruct (Hkey "volume" VNone) as (-> & _); [simpl; tauto|]. reflexivity.
  - unfold pe_ratio_value.
    destruct (Hkey "trailingPE" VNone) as (_ & _ & ->); [simpl; tauto|]. reflexivity.
  - unfold week_range_value.
    destruct (Hkey "fiftyTwoWeekLow" VNone) as (-> & _); [simpl; tauto|]. reflexivity.
Qed.

Lemma key_stock_metrics_missing_keys_witness :
  metric_labels
    (fst (key_stock_metrics (<["longName" := VStr "Apple Inc."]> ∅)))
  = ["Current Price"; "Previous Close"; "Market Cap"; "Volume"; "P/E Ratio";
     "52 Week Range"].
Proof.
  rewrite key_stock_metrics_missing_keys; [reflexivity|].
  intros key Hin. simpl in Hin.
  repeat (destruct Hin as [<-|Hin]; [reflexivity|]). destruct Hin.
Defined.

Lemma format_spec_2f_total (v : value) :
  number_in_range v -> exists s, format_spec_2f v = Ok s.
Proof.
  destruct v as [|z|f|]; try contradiction; intros Hv; simpl.
  - rewrite float_of_int_in_range by exact Hv. simpl. eauto.
  - eauto.
Qed.

Lemma format_spec_comma_total (v : value) :
  number_in_range v -> exists t, format_spec_comma v = Ok t.
Proof. destruct v; try contradiction; simpl; eauto. Qed.

Lemma format_large_number_in_range (v : value) :
  number_in_range v -> exists s, format_large_number v = Ok s.
Proof.
  destruct v as [|z|f|]; try contradiction; intros Hv.
  - destruct (format_large_number_int z Hv) as (body & _ & ->). eauto.
  - apply format_large_number_float.
Qed.

Lemma truthy_number (v : value) :
  number_in_range v -> truthy v = negb (is_zero_number v).
Proof. destruct v; try contradiction; reflexivity. Qed.

Lemma ne_str_number (v : value) (s : string) : number_in_range v -> ne_str v s = true.
Proof. destruct v; try contradiction; reflexivity. Qed.

Section NumericProfile.
Variable info : gmap string value.
Hypothesis numeric : numeric_profile info.

Lemma numeric_entry (key : string) (d : value) :
  In key numeric_keys ->
  (info !! key = None /\ dict_in key info = false /\ dict_get info key d = d
   /\ dict_in_and_truthy key info = false) \/
  (exists v, info !! key = Some v /\ number_in_range v /\ dict_in key info = true
             /\ dict_get info key d = v /\ dict_in_and_truthy key info = truthy v).
Proof.
  intros Hkey. destruct (info !! key) as [v|] eqn:Hv.
  - right. exists v. destruct (dict_read info key v d Hv) as [Hin Hget].
    repeat split; auto; [exact (numeric key v Hkey Hv)|].
    unfold dict_in_and_truthy. rewrite Hv. reflexivity.
  - left. split; [reflexivity|]. apply dict_absent, Hv.
Qed.

Lemma previous_close_value_numeric : exists s, previous_close_value info = Ok s.
Proof.
  unfold previous_close_value.
  destruct (numeric_entry "previousClose" (VInt 0)) as [(_ & -> & _)|(v & _ & Hv & -> & -> & _)];
    [simpl; tauto|eauto|].
  destruct (format_spec_2f_total v Hv) as [s ->]. simpl. eauto.
Qed.

Lemma market_cap_value_numeric : exists s, market_cap_value info = Ok s.
Proof.
  unfold market_cap_value.
  destruct (numeric_entry "marketCap" VNone) as [(_ & _ & -> & _)|(v & _ & Hv & _ & -> & _)];
    [simpl; tauto|simpl; eauto|].
  apply format_large_number_in_range, Hv.
Qed.

Lemma volume_value_numeric : exists t, volume_value info = Ok t.
Proof.
  unfold volume_value.
  destruct (numeric_entry "volume" (VInt 0)) as [(_ & -> & _)|(v & _ & Hv & -> & -> & _)];
    [simpl; tauto|eauto|].
  apply format_spec_comma_total, Hv.
Qed.

Lemma pe_ratio_value_numeric : exists s, pe_ratio_value info = Ok s.
Proof.
  unfold pe_ratio_value.
  destruct (numeric_entry "trailingPE" (VInt 0))
    as [(_ & _ & _ & ->)|(v & _ & Hv & _ & -> & ->)]; [simpl; tauto|eauto|].
  destruct (truthy v); [|eauto]. apply format_spec_2f_total, Hv.
Qed.

Lemma week_range_value_numeric : exists s, week_range_value info = Ok s.
Proof.
  unfold week_range_value.
  destruct (numeric_entry "fiftyTwoWeekLow" (VInt 0))
    as [(_ & -> & _)|(lo & _ & Hlo & -> & -> & _)]; [simpl; tauto|simpl; eauto|].
  destruct (numeric_entry "fiftyTwoWeekHigh" (VInt 0))
    as [(_ & -> & _)|(hi & _ & Hhi & -> & -> & _)]; [simpl; tauto|simpl; eauto|].
  destruct (format_spec_2f_total lo Hlo) as [s1 ->].
  destruct (format_spec_2f_total hi Hhi) as [s2 ->]. simpl. eauto.
Qed.

Lemma current_price_metric_numeric :
  (info !! "currentPrice" = None \/
   forall p, info !! "previousClose" = Some p -> is_zero_number p = false) ->
  exists v delta, current_price_metric info = Ok (StMetric "Current Price" v delta).
Proof.
  intros Hnz. unfold current_price_metric.
  destruct (numeric_entry "currentPrice" (VStr "N/A"))
    as [(_ & _ & -> & _)|(c & Hc & Hrange & _ & -> & _)]; [simpl; tauto|simpl; eauto|].
  rewrite ne_str_number by exact Hrange.
  destruct (format_spec_2f_total c Hrange) as [s ->]. cbn [rbind].
  destruct Hnz as [Habsent|Hnz]; [congruence|].
  destruct (info !! "previousClose") as [p|] eqn:Hp.
  - assert (Hprange : number_in_range p) by (apply (numeric "previousClose"); simpl; tauto).
    assert (Htruthy : truthy p = true)
      by (rewrite truthy_number, (Hnz p eq_refl) by exact Hprange; reflexivity).
    destruct (truediv_total c p Hrange Hprange Htruthy) as [q Hq].
    destruct (dict_read info "previousClose" p c Hp) as [Hin Hget].
    unfold price_delta. rewrite Hin, Hget, Hq. cbn [rbind]. eauto.
  - rewrite price_delta_absent by exact Hp. cbn [rbind]. eauto.
Qed.

(** X4: when whatever the profile holds under the seven numeric keys is a
    number (an int of magnitude below 2^1023 or a float), and the previous
    close is not zero unless the current price is missing, the metrics
    section completes and shows its six metrics in the fixed order. *)
Theorem key_stock_metrics_numeric :
  (info !! "currentPrice" = None \/
   forall p, info !! "previousClose" = Some p -> is_zero_number p = false) ->
  snd (key_stock_metrics info) = Ok tt /\
  metric_labels (fst (key_stock_metrics info))
  = ["Current Price"; "Previous Close"; "Market Cap"; "Volume"; "P/E Ratio";
     "52 Week Range"].
Proof.
  intros Hnz.
  destruct (current_price_metric_numeric Hnz) as (v & delta & H1).
  destruct previous_close_value_numeric as [pc H2].
  destruct market_cap_value_numeric as [mc H3].
  destruct volume_value_numeric as [vol H4].
  destruct pe_ratio_value_numeric as [pe H5].
  destruct week_range_value_numeric as [rg H6].
  rewrite (key_stock_metrics_ok info _ pc mc pe rg vol H1 H2 H3 H4 H5 H6).
  split; reflexivity.
Qed.
End NumericProfile.

Lemma key_stock_metrics_numeric_witness :
  snd (key_stock_metrics Stub.profile) = Ok tt.
Proof.
  apply (key_stock_metrics_numeric Stub.profile).
  - intros key v Hkey Hv. simpl in Hkey.
    repeat (destruct Hkey as [<-|Hkey];
            [vm_compute in Hv; try discriminate Hv; injection Hv as <-;
             vm_compute; reflexivity|]).
    destruct Hkey.
  - right. intros p Hp. vm_compute in Hp. injection Hp as <-. reflexivity.
Defined.

(** *** Where a division by zero can come from *)

Lemma binary_round_aux_nonzero (s : bool) (m e : Z) (l : location) :
  0 < m -> -1074 < Zdigits2 m + e ->
  is_zero (binary_round_aux prec emax s m e l) = false.
Proof.
  intros Hm Hlow. unfold binary_round_aux.
  destruct (shr_fexp_spec m e l ltac:(lia)) as (Hm1 & He1 & Hd1).
  destruct (shr_fexp prec emax m e l) as [r1 e1]. cbn [fst snd] in *.
  set (m2 := round_nearest_even (shr_m r1) (loc_of_shr_record r1)).
  pose proof (round_nearest_even_spec (shr_m r1) (loc_of_shr_record r1) Hm1) as Hm2.
  fold m2 in Hm2.
  assert (Hd2 : Zdigits2 (shr_m r1) <= Zdigits2 m2) by (apply Zdigits2_le; lia).
  destruct (shr_fexp_spec m2 e1 loc_Exact ltac:(lia)) as (Hm3 & He3 & Hd3).
  destruct (shr_fexp prec emax m2 e1 loc_Exact) as [r3 e3]. cbn [fst snd] in *.
  assert (0 < Zdigits2 m)
    by (rewrite Zdigits2_log2 by lia; pose proof (Z.log2_nonneg m); lia).
  assert (Hnz : shr_m r3 <> 0) by (apply Zdigits2_pos; unfold fexp64 in *; lia).
  destruct (shr_m r3) as [|p|p]; [contradiction| |reflexivity].
  destruct (e3 <=? emax - prec); reflexivity.
Qed.

Lemma nearest_float_nonzero (z : Z) : z <> 0 -> is_zero (nearest_float z) = false.
Proof.
  assert (Hround : forall s m, is_zero (binary_round prec emax s m 0) = false).
  { intros s m. unfold binary_round.
    destruct (shl_align_spec m 0 (fexp prec emax (Zpos (digits2_pos m) + 0)))
      as [He Hd].
    destruct (shl_align m 0 _) as [mz ez]. cbn [fst snd] in *.
    apply binary_round_aux_nonzero; [lia|].
    rewrite Hd. simpl Zdigits2. lia. }
  destruct z as [|m|m]; [contradiction| |]; intros _; apply Hround.
Qed.

(** A true division raises ZeroDivisionError only for a divisor that is a
    zero, int or float. *)
Lemma truediv_zero_division (a b : value) :
  truediv a b = Raise ZeroDivisionError -> is_zero_number b = true.
Proof.
  destruct a as [|x|f|], b as [|y|g|]; try discriminate; simpl.
  - unfold int_truediv. destruct (y =? 0); [reflexivity|].
    destruct (is_infinity _); discriminate.
  - unfold float_of_int. destruct (is_infinity _); [discriminate|]. simpl.
    unfold float_div. destruct (is_zero g); [reflexivity | discriminate].
  - unfold float_of_int. destruct (is_infinity _); [discriminate|]. simpl.
    unfold float_div. destruct (is_zero (nearest_float y)) eqn:Hz; [|discriminate].
    intros _. destruct (Z.eqb_spec y 0) as [|Hy]; [reflexivity|].
    rewrite (nearest_float_nonzero y Hy) in Hz. discriminate Hz.
  - unfold float_div. destruct (is_zero g); [reflexivity | discriminate].
Qed.

Lemma format_spec_2f_no_zero_division (v : value) :
  format_spec_2f v <> Raise ZeroDivisionError.
Proof.
  destruct v; simpl; try discriminate.
  unfold float_of_int. destruct (is_infinity _); discriminate.
Qed.

Lemma scale_no_zero_division (num : value) (scale : Z) (suffix : string) :
  scale <> 0 ->
  (q <-! truediv num (VInt scale); Ok ("$" +:+ format_2f q +:+ suffix))
  <> Raise ZeroDivisionError.
Proof.
  intros Hscale Hraise.
  destruct (truediv num (VInt scale)) as [q|e] eqn:Hq; [discriminate Hraise|].
  simpl in Hraise. injection Hraise as ->.
  apply truediv_zero_division in Hq. simpl in Hq.
  apply Z.eqb_eq in Hq. contradiction.
Qed.

Lemma format_large_number_no_zero_division (num : value) :
  format_large_number num <> Raise ZeroDivisionError.
Proof.
  unfold format_large_number. destruct num as [|z|f|]; try discriminate; cbn [ge_int rbind];
    repeat match goal with
           | |- (if ?c then _ else _) <> _ =>
               destruct c; [apply scale_no_zero_division; discriminate|]
           end;
    intros Hraise;
    match type of Hraise with
    | rbind ?r _ = _ => destruct r eqn:Hfmt; [discriminate Hraise|]
    end;
    simpl in Hraise; injection Hraise as ->;
    exact (format_spec_2f_no_zero_division _ Hfmt).
Qed.

(** X5: the only division by zero of the metrics section is the one of the
    delta: if the section ends with ZeroDivisionError then the profile has a
    current price (other than the string "N/A") and a previous close that is
    a zero. *)
Theorem zero_division_only_from_delta (info : gmap string value) :
  snd (key_stock_metrics info) = Raise ZeroDivisionError ->
  exists current previous,
    info !! "currentPrice" = Some current /\ ne_str current "N/A" = true /\
    info !! "previousClose" = Some previous /\ is_zero_number previous = true.
Proof.
  intros Hraise.
  destruct (key_stock_metrics_raise info _ Hraise) as [H|[H|[H|[H|[H|H]]]]].
  - unfold current_price_metric in H.
    destruct (info !! "currentPrice") as [current|] eqn:Hcurrent.
    + destruct (dict_read info "currentPrice" current (VStr "N/A") Hcurrent) as [_ Hget].
      rewrite Hget in H.
      destruct (ne_str current "N/A") eqn:Hne; [|discriminate H].
      destruct (format_spec_2f current) as [v|e] eqn:Hfmt.
      * cbn [rbind] in H. unfold price_delta in H.
        destruct (info !! "previousClose") as [previous|] eqn:Hprevious.
        -- destruct (dict_read info "previousClose" previous current Hprevious)
             as [Hin Hgetp].
           rewrite Hin, Hgetp in H.
           destruct (truediv current previous) as [q|e] eqn:Hq; [discriminate H|].
           simpl in H. injection H as ->.
           exists current, previous. repeat split; auto.
           exact (truediv_zero_division _ _ Hq).
        -- destruct (dict_absent info "previousClose" current Hprevious) as (Hin & _).
           rewrite Hin in H. discriminate H.
      * simpl in H. injection H as ->.
        destruct (format_spec_2f_no_zero_division _ Hfmt).
    + destruct (dict_absent info "currentPrice" (VStr "N/A") Hcurrent) as (_ & Hget & _).
      rewrite Hget in H. discriminate H.
  - unfold previous_close_value in H. destruct (dict_in _ info); [|discriminate H].
    destruct (format_spec_2f _) eqn:Hfmt; [discriminate H|].
    simpl in H. injection H as ->. destruct (format_spec_2f_no_zero_division _ Hfmt).
  - destruct (format_large_number_no_zero_division _ H).
  - unfold volume_value in H. destruct (dict_in _ info); [|discriminate H].
    destruct (dict_get info "volume" (VInt 0)); discriminate H.
  - unfold pe_ratio_value in H. destruct (dict_in_and_truthy _ info); [|discriminate H].
    destruct (format_spec_2f_no_zero_division _ H).
  - unfold week_range_value in H. destruct (_ && _); [|discriminate H].
    destruct (format_spec_2f (dict_get info "fiftyTwoWeekLow" (VInt 0))) eqn:Hlo;
      [|simpl in H; injection H as ->;
        destruct (format_spec_2f_no_zero_division _ Hlo)].
    destruct (format_spec_2f (dict_get info "fiftyTwoWeekHigh" (VInt 0))) eqn:Hhi;
      [discriminate H|].
    simpl in H. injection H as ->. destruct (format_spec_2f_no_zero_division _ Hhi).
Qed.

Lemma zero_division_only_from_delta_witness :
  exists current previous,
    Stub.flat_profile !! "currentPrice" = Some current /\ ne_str current "N/A" = true /\
    Stub.flat_profile !! "previousClose" = Some previous /\
    is_zero_number previous = true.
Proof.
  apply zero_division_only_from_delta. vm_compute. reflexivity.
Defined.

(** *** Entries that are not numbers *)

(** X6: a key that is present with the value [None] (or a string) is not
    treated as a missing key: with a numeric current price and such a
    previous close the delta expression raises TypeError and the metrics
    section stops after its heading, before any metric is shown. *)
Theorem previous_close_not_a_number (info : gmap string value)
    (current previous : value) :
  info !! "currentPrice" = Some current -> number_in_range current ->
  info !! "previousClose" = Some previous ->
  previous = VNone \/ (exists s, previous = VStr s) ->
  key_stock_metrics info = ([StSubheader "Key Stock Metrics"], Raise TypeError).
Proof.
  intros Hcurrent Hrange Hprevious Hkind. rewrite key_stock_metrics_eq.
  assert (Hmetric : current_price_metric info = Raise TypeError).
  { unfold current_price_metric.
    destruct (dict_read info "currentPrice" current (VStr "N/A") Hcurrent) as [_ ->].
    rewrite ne_str_number by exact Hrange.
    destruct (format_spec_2f_total current Hrange) as [v ->]. cbn [rbind].
    unfold price_delta.
    destruct (dict_read info "previousClose" previous current Hprevious) as [-> ->].
    destruct current; try contradiction;
      destruct Hkind as [->|[s ->]]; reflexivity. }
  rewrite Hmetric. reflexivity.
Qed.

Lemma previous_close_not_a_number_witness :
  key_stock_metrics
    (<["currentPrice" := VFloat (nearest_float 189)]>
       (<["previousClose" := VNone]> ∅))
  = ([StSubheader "Key Stock Metrics"], Raise TypeError).
Proof.
  apply (previous_close_not_a_number _ (VFloat (nearest_float 189)) VNone);
    [reflexivity | exact I | reflexivity | left; reflexivity].
Defined.

(** X7: [format_large_number] raises in two cases only: TypeError for a
    string, at the first comparison, and OverflowError for an int of
    magnitude at least 2^1023, which has no double. *)
Theorem format_large_number_raises (num : value) (e : exn) :
  format_large_number num = Raise e ->
  (exists s, num = VStr s /\ e = TypeError) \/
  (exists z, num = VInt z /\ 2 ^ 1023 <= Z.abs z /\ e = OverflowError).
Proof.
  intros Hraise. destruct num as [|z|f|s].
  - discriminate Hraise.
  - right. exists z. split; [reflexivity|].
    destruct (Z.lt_ge_cases (Z.abs z) (2 ^ 1023)) as [Hin|Hout].
    + destruct (format_large_number_int z Hin) as (body & _ & Hok).
      rewrite Hok in Hraise. discriminate Hraise.
    + split; [exact Hout|].
      unfold format_large_number in Hraise. cbn [ge_int rbind] in Hraise.
      unfold truediv, int_truediv, format_spec_2f, float_of_int in Hraise.
      cbn [Z.eqb] in Hraise.
      repeat match type of Hraise with
             | (if ?c then _ else _) = _ => destruct c
             | rbind (if ?c then _ else _) _ = _ => destruct c
             | rbind (rbind (if ?c then _ else _) _) _ = _ => destruct c
             end; cbn [rbind] in Hraise; congruence.
  - destruct (format_large_number_float f) as [s Hok].
    rewrite Hok in Hraise. discriminate Hraise.
  - left. exists s. split; [reflexivity|]. simpl in Hraise. congruence.
Qed.

Lemma format_large_number_raises_witness :
  (exists s, VInt (10 ^ 400) = VStr s /\ OverflowError = TypeError) \/
  (exists z, VInt (10 ^ 400) = VInt z /\ 2 ^ 1023 <= Z.abs z
             /\ OverflowError = OverflowError).
Proof.
  apply format_large_number_raises. vm_compute. reflexivity.
Defined.

(** *** An exception in the metrics *)

Lemma stock_page_raise (P : provider) (now : Z) (ticker_input ticker : string) info
    (period : string) (e : exn) :
  snd (key_stock_metrics info) = Raise e ->
  stock_page P now ticker_input ticker info period =
  ((fst (company_information ticker_input info) ++ fst (key_stock_metrics info))%list,
   Raise e).
Proof.
  intros Hmetrics. unfold stock_page.
  pose proof (company_information_outcome ticker_input info) as Hname.
  destruct (company_information ticker_input info) as [l1 r1].
  destruct (key_stock_metrics info) as [l2 r2].
  simpl in Hname, Hmetrics. subst r1 r2. reflexivity.
Qed.

(** X8: an exception of a metric is not caught: for a found profile whose
    metrics section raises, the execution ends with that exception after the
    company part and the metrics shown so far; the historical lookup is never
    made and nothing of the historical section is shown. *)
Theorem metrics_exception_stops_page (P : provider) (now : Z) (text_input : string)
    (submit_button : bool) (period : string) (info : gmap string value) (e : exn) :
  str_bool (upper text_input) = true ->
  ticker_info P (upper text_input) = Returns info ->
  dict_bool info = true ->
  snd (key_stock_metrics info) = Raise e ->
  script P now text_input submit_button period =
    (([StMarkdown [Lit "###"];
       StSpinner ("Fetching data for " +:+ upper text_input +:+ "...");
       ProfileLookup (upper text_input)]
      ++ fst (company_information (upper text_input) info)
      ++ fst (key_stock_metrics info))%list, Raise e) /\
  provider_calls (fst (script P now text_input submit_button period))
  = [ProfileLookup (upper text_input)] /\
  chart_rows (fst (script P now text_input submit_button period)) = 0%nat.
Proof.
  intros Hentered Hfound Hidentified Hraise.
  rewrite (script_lookup_found P now text_input submit_button period
             Hentered info Hfound Hidentified).
  rewrite (stock_page_raise P now _ _ info period e Hraise). cbn [fst snd].
  split; [reflexivity|]. split.
  - rewrite !provider_calls_app.
    rewrite (page_elements_no_calls (fst (company_information _ info)))
      by apply company_information_emits.
    rewrite (page_elements_no_calls (fst (key_stock_metrics info)))
      by apply key_stock_metrics_emits.
    reflexivity.
  - rewrite !chart_rows_app.
    rewrite (page_elements_no_chart (fst (company_information _ info)))
      by apply company_information_emits.
    rewrite (page_elements_no_chart (fst (key_stock_metrics info)))
      by apply key_stock_metrics_emits.
    reflexivity.
Qed.

Lemma metrics_exception_stops_page_witness :
  provider_calls (fst (script Stub.flat Stub.clock "aapl" false "1 Week"))
  = [ProfileLookup "AAPL"].
Proof.
  apply (metrics_exception_stops_page Stub.flat Stub.clock "aapl" false "1 Week"
           Stub.flat_profile ZeroDivisionError); reflexivity.
Defined.

(** *** A series with rows *)

(** X9: for an entered symbol whose profile is found and rendered and whose
    historical lookup returns at least one row, the execution completes in
    the displaying state without any error banner; the chart gets one point
    per row, the four price statistics are those of the last row with two
    decimals, and the table gets every row. *)
Theorem series_is_charted (P : provider) (now : Z) (text_input : string)
    (submit_button : bool) (period : string) (info : gmap string value)
    (first : ohlcv) (others : list ohlcv) :
  str_bool (upper text_input) = true ->
  ticker_info P (upper text_input) = Returns info ->
  dict_bool info = true ->
  snd (key_stock_metrics info) = Ok tt ->
  timedelta 365 <= now <= datetime_max ->
  ticker_history P (upper text_input) (now - timedelta (Spec.offset period)) now
    = Returns (first :: others) ->
  snd (script P now text_input submit_button period) = Ok tt /\
  reaches (upper text_input) (script P now text_input submit_button period)
    = Some Displaying /\
  existsb is_error_banner (fst (script P now text_input submit_button period)) = false /\
  chart_rows (fst (script P now text_input submit_button period))
    = length (first :: others) /\
  (exists page,
     fst (script P now text_input submit_button period) =
     (page ++
      [StSubheader "Price Statistics";
       StMetric "Open" [Lit ("$" +:+ format_2f (Open (List.last others first)))] None;
       StMetric "High" [Lit ("$" +:+ format_2f (High (List.last others first)))] None;
       StMetric "Low" [Lit ("$" +:+ format_2f (Low (List.last others first)))] None;
       StMetric "Close" [Lit ("$" +:+ format_2f (Close (List.last others first)))] None;
       StExpander "View Historical Data Table";
       StDataframe (first :: others)])%list).
Proof.
  intros Hentered Hfound Hidentified Hrendered Hclock Hrows.
  pose proof (profile_part_no_banner text_input info) as Hbanner.
  pose proof (profile_part_no_chart text_input info) as Hchart.
  pose proof (script_found_eq P now text_input submit_button period info
                Hentered Hfound Hidentified Hrendered) as Hrun.
  cbv zeta in Hbanner, Hchart, Hrun.
  match type of Hbanner with
  | existsb _ ?l = _ => set (profile_part := l) in *
  end.
  assert (Hsection :
    historical_price_chart P now (upper text_input) (upper text_input)
      (dict_get info "longName" (VStr (upper text_input))) period =
    ([StSubheader "Historical Price Chart";
      StSelectbox "Select Time Frame" time_periods period;
      HistoryLookup (upper text_input) (now - timedelta (Spec.offset period)) now;
      StPlotlyChart
        (str_value (dict_get info "longName" (VStr (upper text_input)))
           ++ [Lit (" Stock Price (" +:+ period +:+ ")")])%list
        (map Date (first :: others)) (map Close (first :: others));
      StSubheader "Price Statistics";
      StMetric "Open" [Lit ("$" +:+ format_2f (Open (List.last others first)))] None;
      StMetric "High" [Lit ("$" +:+ format_2f (High (List.last others first)))] None;
      StMetric "Low" [Lit ("$" +:+ format_2f (Low (List.last others first)))] None;
      StMetric "Close" [Lit ("$" +:+ format_2f (Close (List.last others first)))] None;
      StExpander "View Historical Data Table";
      StDataframe (first :: others)], Ok tt)).
  { unfold historical_price_chart.
    rewrite (get_historical_data_eq P now (upper text_input) period Hclock), Hrows.
    reflexivity. }
  rewrite Hrun, Hsection. cbn [fst snd].
  split; [reflexivity|]. split; [|split; [|split]].
  - unfold reaches. rewrite !existsb_app.
    rewrite (no_banner_no_message _ _ Hbanner). simpl.
    rewrite orb_true_r. reflexivity.
  - rewrite existsb_app, Hbanner. reflexivity.
  - rewrite chart_rows_app, Hchart. simpl. rewrite length_map. lia.
  - eexists (profile_part ++ [_; _; _; _])%list.
    rewrite <- app_assoc. reflexivity.
Qed.

Lemma series_is_charted_witness :
  chart_rows (fst (script Stub.one_row Stub.clock "aapl" false "1 Week")) = 1%nat.
Proof.
  assert (Hclock : timedelta 365 <= Stub.clock <= datetime_max)
    by (vm_compute; split; discriminate).
  destruct (series_is_charted Stub.one_row Stub.clock "aapl" false "1 Week"
              Stub.profile Stub.day [] eq_refl eq_refl eq_refl eq_refl Hclock eq_refl)
    as (_ & _ & _ & Hrows & _).
  exact Hrows.
Defined.

(** *** How many provider calls *)

Lemma chart_calls_any_clock (P : provider) (now : Z)
    (ticker_input ticker : string) (company_name : value) (period : string) :
  provider_calls
    (fst (historical_price_chart P now ticker_input ticker company_name period)) = []
  \/ exists start_date,
       provider_calls
         (fst (historical_price_chart P now ticker_input ticker company_name period))
       = [HistoryLookup ticker start_date now].
Proof.
  unfold historical_price_chart, get_historical_data.
  set (start := if String.eqb period "1 Week" then _ else _).
  destruct start as [start_date|e]; [right; exists start_date|left; reflexivity].
  destruct (ticker_history P ticker start_date now) as [[|first others]|e];
    reflexivity.
Qed.

(** X10: an execution makes no provider call for the empty input and
    otherwise one or two: the profile lookup for the uppercase symbol, then
    at most one historical lookup, for the same symbol and ending now. *)
Theorem at_most_two_provider_calls (P : provider) (now : Z) (text_input : string)
    (submit_button : bool) (period : string) :
  (text_input = "" ->
   provider_calls (fst (script P now text_input submit_button period)) = []) /\
  (text_input <> "" ->
   provider_calls (fst (script P now text_input submit_button period))
   = [ProfileLookup (upper text_input)] \/
   exists start_date,
     provider_calls (fst (script P now text_input submit_button period))
     = [ProfileLookup (upper text_input);
        HistoryLookup (upper text_input) start_date now]).
Proof.
  split.
  - intros ->. rewrite script_empty. destruct submit_button; reflexivity.
  - intros Hne.
    assert (Hentered : str_bool (upper text_input) = true)
      by (rewrite str_bool_upper; destruct text_input; [contradiction | reflexivity]).
    destruct (ticker_info P (upper text_input)) as [info|e] eqn:Hinfo.
    + destruct (dict_bool info) eqn:Hfound.
      * rewrite (script_lookup_found P now text_input submit_button period
                   Hentered info Hinfo Hfound). cbn [fst].
        rewrite provider_calls_app.
        change (provider_calls [_; _; _]) with [ProfileLookup (upper text_input)].
        destruct (snd (key_stock_metrics info)) as [[]|e] eqn:Hmetrics.
        -- rewrite stock_page_eq by exact Hmetrics. cbn [fst].
           rewrite !provider_calls_app.
           rewrite (page_elements_no_calls (fst (company_information _ info)))
             by apply company_information_emits.
           rewrite (page_elements_no_calls (fst (key_stock_metrics info)))
             by apply key_stock_metrics_emits.
           destruct (chart_calls_any_clock P now (upper text_input) (upper text_input)
                       (dict_get info "longName" (VStr (upper text_input))) period)
             as [->|[start_date ->]]; [left; reflexivity|right].
           exists start_date. reflexivity.
        -- rewrite (stock_page_raise P now _ _ info period e Hmetrics). cbn [fst].
           rewrite !provider_calls_app.
           rewrite (page_elements_no_calls (fst (company_information _ info)))
             by apply company_information_emits.
           rewrite (page_elements_no_calls (fst (key_stock_metrics info)))
             by apply key_stock_metrics_emits.
           left. reflexivity.
      * rewrite (script_lookup_empty P now text_input submit_button period
                   Hentered info Hinfo Hfound). left. reflexivity.
    + rewrite (script_lookup_raises P now text_input submit_button period
                 Hentered e Hinfo). left. reflexivity.
Qed.

Lemma at_most_two_provider_calls_witness :
  provider_calls (fst (script Stub.unknown Stub.clock "msft" true "1 Year"))
  = [ProfileLookup "MSFT"] \/
  exists start_date,
    provider_calls (fst (script Stub.unknown Stub.clock "msft" true "1 Year"))
    = [ProfileLookup "MSFT"; HistoryLookup "MSFT" start_date Stub.clock].
Proof.
  destruct (at_most_two_provider_calls Stub.unknown Stub.clock "msft" true "1 Year")
    as [_ Hcalls].
  apply Hcalls. discriminate.
Defined.

(** *** What an execution depends on *)

Lemma upper_char_idempotent (c : ascii) : upper_char (upper_char c) = upper_char c.
Proof. destruct c as [[] [] [] [] [] [] [] []]; reflexivity. Qed.

Lemma upper_idempotent (s : string) : upper (upper s) = upper s.
Proof.
  induction s as [|c s IH]; [reflexivity|].
  simpl. rewrite upper_char_idempotent, IH. reflexivity.
Qed.

(** X11: the execution depends on the text box only through its uppercase
    form, and for a non-empty input it does not depend on the button: two
    non-empty inputs that differ only in letter case give the same execution,
    clicked or not; in particular the uppercase form of an input gives the
    execution of the input itself. *)
Theorem ticker_case_and_button_irrelevant (P : provider) (now : Z)
    (period : string) :
  (forall text_input submit_button,
     script P now (upper text_input) submit_button period
     = script P now text_input submit_button period) /\
  (forall t1 t2 b1 b2, upper t1 = upper t2 -> t1 <> "" ->
     script P now t1 b1 period = script P now t2 b2 period).
Proof.
  split.
  - intros text_input submit_button. unfold script.
    rewrite upper_idempotent. reflexivity.
  - intros t1 t2 b1 b2 Hsame Hne. unfold script. rewrite <- Hsame.
    assert (Hentered : str_bool (upper t1) = true)
      by (rewrite str_bool_upper; destruct t1; [contradiction | reflexivity]).
    rewrite Hentered, !orb_true_r. reflexivity.
Qed.

Lemma ticker_case_and_button_irrelevant_witness :
  script Stub.no_rows Stub.clock "Aapl" true "1 Month"
  = script Stub.no_rows Stub.clock "aaPL" false "1 Month".
Proof.
  destruct (ticker_case_and_button_irrelevant Stub.no_rows Stub.clock "1 Month")
    as [_ Hsame].
  apply Hsame; [reflexivity | discriminate].
Defined.

(** X12: the period chosen only matters from the historical heading on:
    whatever precedes it (and the whole page when the historical section is
    not reached) is the same for every period, and the historical section
    starts with its heading and the selector showing the chosen period. *)
Theorem period_only_changes_historical_section (P : provider) (now : Z)
    (text_input : string) (submit_button : bool) :
  exists before,
    forall period, exists section,
      fst (script P now text_input submit_button period) = (before ++ section)%list /\
      (section = [] \/
       exists rest,
         section = StSubheader "Historical Price Chart"
                   :: StSelectbox "Select Time Frame" time_periods period :: rest).
Proof.
  destruct (str_bool (upper text_input)) eqn:Hentered.
  - destruct (ticker_info P (upper text_input)) as [info|e] eqn:Hinfo.
    + destruct (dict_bool info) eqn:Hfound.
      * destruct (snd (key_stock_metrics info)) as [[]|e] eqn:Hmetrics.
        -- exists ([StMarkdown [Lit "###"];
                    StSpinner ("Fetching data for " +:+ upper text_input +:+ "...");
                    ProfileLookup (upper text_input)]
                   ++ fst (company_information (upper text_input) info)
                   ++ fst (key_stock_metrics info))%list.
           intros period.
           exists (fst (historical_price_chart P now (upper text_input)
                          (upper text_input)
                          (dict_get info "longName" (VStr (upper text_input)))
                          period)).
           rewrite (script_lookup_found P now text_input submit_button period
                      Hentered info Hinfo Hfound).
           rewrite stock_page_eq by exact Hmetrics. cbn [fst].
           split; [repeat rewrite <- app_assoc; reflexivity|]. right.
           unfold historical_price_chart. rewrite bind_emit. cbn [fst].
           rewrite bind_emit. cbn [fst]. eauto.
        -- exists ([StMarkdown [Lit "###"];
                    StSpinner ("Fetching data for " +:+ upper text_input +:+ "...");
                    ProfileLookup (upper text_input)]
                   ++ fst (company_information (upper text_input) info)
                   ++ fst (key_stock_metrics info))%list.
           intros period. exists [].
           rewrite (script_lookup_found P now text_input submit_button period
                      Hentered info Hinfo Hfound).
           rewrite (stock_page_raise P now _ _ info period e Hmetrics). cbn [fst].
           rewrite app_nil_r. split; [reflexivity | left; reflexivity].
      * exists [StMarkdown [Lit "###"];
                StSpinner ("Fetching data for " +:+ upper text_input +:+ "...");
                ProfileLookup (upper text_input);
                StError (not_found_message (upper text_input))].
        intros period. exists [].
        rewrite (script_lookup_empty P now text_input submit_button period
                   Hentered info Hinfo Hfound). cbn [fst].
        rewrite app_nil_r. split; [reflexivity | left; reflexivity].
    + exists [StMarkdown [Lit "###"];
              StSpinner ("Fetching data for " +:+ upper text_input +:+ "...");
              ProfileLookup (upper text_input);
              StError ("Error fetching data for " +:+ upper text_input +:+ ": " +:+ e);
              StError (not_found_message (upper text_input))].
      intros period. exists [].
      rewrite (script_lookup_raises P now text_input submit_button period
                 Hentered e Hinfo). cbn [fst].
      rewrite app_nil_r. split; [reflexivity | left; reflexivity].
  - rewrite str_bool_upper in Hentered.
    destruct text_input; [|discriminate Hentered].
    exists (StMarkdown [Lit "###"]
              :: (if submit_button
                  then [StWarning "Please enter a stock ticker symbol."] else [])).
    intros period. exists []. rewrite script_empty. cbn [fst].
    rewrite app_nil_r. split; [reflexivity | left; reflexivity].
Qed.

(** *** Two decimals *)

Lemma div_nearest_even_spec (n d : Z) :
  0 <= n -> 0 < d ->
  0 <= div_nearest_even n d /\
  Z.abs (2 * (n - div_nearest_even n d * d)) <= d /\
  (2 * (n mod d) = d -> Z.even (div_nearest_even n d) = true).
Proof.
  intros Hn Hd. unfold div_nearest_even.
  pose proof (Z.div_mod n d ltac:(lia)) as Hdiv.
  pose proof (Z.mod_pos_bound n d Hd) as Hmod.
  pose proof (Z.div_pos n d Hn Hd) as Hq.
  destruct (Z.compare_spec (2 * (n mod d)) d) as [Heq|Hlt|Hgt].
  - destruct (Z.even (n / d)) eqn:Heven.
    + repeat split; [lia | nia | auto].
    + repeat split; [lia | nia |]. intros _.
      replace (n / d + 1) with (Z.succ (n / d)) by lia.
      rewrite Z.even_succ, <- Z.negb_even, Heven. reflexivity.
  - repeat split; [lia | nia | lia].
  - repeat split; [lia | nia | lia].
Qed.

Lemma str_of_N_reads_back (n : N) :
  option_map N.of_uint (NilEmpty.uint_of_string (str_of_N n)) = Some n.
Proof.
  unfold str_of_N, NilZero.string_of_uint.
  assert (Hread : option_map N.of_uint
                    (NilEmpty.uint_of_string (NilEmpty.string_of_uint (N.to_uint n)))
                  = Some n)
    by (rewrite NilEmpty.usu; simpl; rewrite DecimalN.Unsigned.of_to; reflexivity).
  destruct (N.to_uint n) eqn:Hn; exact Hread.
Qed.

(** X13: a finite non-zero float is shown, by the two-decimal format used
    for every price, as the number of hundredths nearest to its exact value:
    exact when the binary exponent is not negative, otherwise within half a
    hundredth, a tie going to the even count; the digits before the point
    read back as that count divided by 100 and the two after it are its last
    two decimal digits. *)
Theorem two_decimals_nearest_hundredth (s : bool) (m : positive) (e : Z) :
  magnitude_2f (S754_finite s m e) = fixed2 (hundredths m e) /\
  0 <= hundredths m e /\
  (0 <= e -> hundredths m e = Zpos m * 2 ^ e * 100) /\
  (e < 0 ->
   Z.abs (2 * (Zpos m * 100 - hundredths m e * 2 ^ (- e))) <= 2 ^ (- e) /\
   (2 * ((Zpos m * 100) mod 2 ^ (- e)) = 2 ^ (- e) -> Z.even (hundredths m e) = true)) /\
  fixed2 (hundredths m e) =
    str_of_N (Z.to_N (hundredths m e / 100)) +:+ "." +:+
    String (digit_char (hundredths m e / 10 mod 10))
           (String (digit_char (hundredths m e mod 10)) "") /\
  option_map N.of_uint
    (NilEmpty.uint_of_string (str_of_N (Z.to_N (hundredths m e / 100))))
  = Some (Z.to_N (hundredths m e / 100)).
Proof.
  split; [reflexivity|].
  assert (Hneg : forall p,
            0 <= div_nearest_even (Zpos m * 100) (2 ^ Zpos p) /\
            Z.abs (2 * (Zpos m * 100 - div_nearest_even (Zpos m * 100) (2 ^ Zpos p)
                                       * 2 ^ Zpos p)) <= 2 ^ Zpos p /\
            (2 * ((Zpos m * 100) mod 2 ^ Zpos p) = 2 ^ Zpos p ->
             Z.even (div_nearest_even (Zpos m * 100) (2 ^ Zpos p)) = true)).
  { intros p. apply div_nearest_even_spec; [lia|].
    apply Z.pow_pos_nonneg; lia. }
  split; [|split; [|split; [|split; [reflexivity | apply str_of_N_reads_back]]]].
  - destruct e as [|p|p]; simpl hundredths; [lia| |apply Hneg].
    assert (0 < 2 ^ Zpos p) by (apply Z.pow_pos_nonneg; lia). nia.
  - intros He. destruct e as [|p|p]; [reflexivity | reflexivity | lia].
  - intros He. destruct e as [|p|p]; try lia.
    change (- Zneg p) with (Zpos p). simpl hundredths.
    destruct (Hneg p) as (_ & Hnear & Htie). split; assumption.
Qed.

Lemma two_decimals_nearest_hundredth_witness :
  Z.abs (2 * (4571153621781053 * 100
              - hundredths 4571153621781053 (-52) * 2 ^ (- (-52)))) <= 2 ^ (- (-52)).
Proof.
  destruct (two_decimals_nearest_hundredth false 4571153621781053 (-52))
    as (_ & _ & _ & Hnear & _).
  destruct Hnear as [Hnear _]; [lia | exact Hnear].
Defined.

(** *** Thousands separators *)

Lemma strip_commas_list (l : list ascii) :
  strip_commas (string_of_list_ascii l)
  = string_of_list_ascii (List.filter not_comma l).
Proof.
  induction l as [|c l IH]; [reflexivity|].
  simpl. unfold not_comma at 1. destruct (Ascii.eqb c ","%char); simpl; congruence.
Qed.

Lemma group3_spec (n : nat) :
  forall l, (length l <= n)%nat ->
    Forall (fun c => not_comma c = true) l ->
    List.filter not_comma (group3 l) = l /\
    length (group3 l) = (length l + (length l - 1) / 3)%nat.
Proof.
  induction n as [n IH] using lt_wf_ind. intros l Hlen Hclean.
  assert (Hhead : forall x xs, Forall (fun c => not_comma c = true) (x :: xs) ->
            not_comma x = true /\ Forall (fun c => not_comma c = true) xs)
    by (intros x xs H; inversion H; auto).
  destruct l as [|a [|b [|c [|d rest]]]].
  - split; reflexivity.
  - destruct (Hhead _ _ Hclean) as [Ha _].
    split; [cbn; rewrite Ha|]; reflexivity.
  - destruct (Hhead _ _ Hclean) as [Ha [Hb _]%Hhead].
    split; [cbn; rewrite Ha, Hb|]; reflexivity.
  - destruct (Hhead _ _ Hclean) as [Ha [Hb [Hc _]%Hhead]%Hhead].
    split; [cbn; rewrite Ha, Hb, Hc|]; reflexivity.
  - destruct (Hhead _ _ Hclean) as [Ha [Hb [Hc [Hd Hclean']%Hhead]%Hhead]%Hhead].
    assert (Hrest : Forall (fun c => not_comma c = true) (d :: rest))
      by (constructor; assumption).
    destruct (IH (length (d :: rest)) ltac:(simpl in *; lia) (d :: rest) (le_n _) Hrest)
      as [Hfilter Hlength].
    change (group3 (a :: b :: c :: d :: rest))
      with (a :: b :: c :: ","%char :: group3 (d :: rest)).
    split; [cbn [List.filter]; rewrite Ha, Hb, Hc;
            change (not_comma ","%char) with false; cbv iota;
            rewrite Hfilter; reflexivity|].
    simpl length in *. rewrite Hlength.
    pose proof (Nat.div_mod_eq (length rest) 3).
    pose proof (Nat.div_mod_eq (S (S (S (length rest)))) 3).
    pose proof (Nat.mod_upper_bound (length rest) 3 ltac:(lia)).
    pose proof (Nat.mod_upper_bound (S (S (S (length rest)))) 3 ltac:(lia)).
    replace (S (length rest) - 1)%nat with (length rest) by lia.
    replace (S (S (S (S (length rest)))) - 1)%nat with (S (S (S (length rest)))) by lia.
    lia.
Qed.

Lemma digit_not_comma (c : ascii) : is_digit c = true -> not_comma c = true.
Proof.
  destruct c as [[] [] [] [] [] [] [] []]; intros H; try discriminate H; reflexivity.
Qed.

Lemma string_list_length (l : list ascii) :
  String.length (string_of_list_ascii l) = length l.
Proof. induction l as [|c l IH]; simpl; congruence. Qed.

Lemma list_string_length (s : string) :
  length (list_ascii_of_string s) = String.length s.
Proof. induction s as [|c s IH]; simpl; congruence. Qed.

Lemma str_of_Z_sign (z : Z) :
  str_of_Z z = sign_str (z <? 0) +:+ str_of_N (Z.abs_N z).
Proof. destruct z; reflexivity. Qed.

(** X14: the thousands separators of the volume only add commas: removing
    the commas from the grouped rendering of an int gives back [str] of that
    int, and the rendering is longer by one comma for every three digits
    after the first. *)
Theorem grouped_int_strips_to_digits (z : Z) :
  strip_commas (grouped_int z) = str_of_Z z /\
  String.length (grouped_int z)
  = (String.length (str_of_Z z) + (String.length (str_of_N (Z.abs_N z)) - 1) / 3)%nat.
Proof.
  rewrite str_of_Z_sign. unfold grouped_int.
  set (digits := list_ascii_of_string (str_of_N (Z.abs_N z))).
  assert (Hclean : Forall (fun c => not_comma c = true) (rev digits)).
  { apply List.Forall_rev.
    eapply Forall_impl; [apply (str_of_N_digits (Z.abs_N z))|].
    intros c Hc. apply digit_not_comma, Hc. }
  destruct (group3_spec (length (rev digits)) (rev digits) (le_n _) Hclean)
    as [Hfilter Hlength].
  assert (Hdigits : string_of_list_ascii digits = str_of_N (Z.abs_N z))
    by apply string_of_list_ascii_of_string.
  split.
  - assert (Hstrip : strip_commas (string_of_list_ascii (rev (group3 (rev digits))))
                     = str_of_N (Z.abs_N z)).
    { rewrite strip_commas_list, List.filter_rev, Hfilter, rev_involutive.
      exact Hdigits. }
    destruct (z <? 0); simpl sign_str.
    + change (strip_commas ("-" +:+ ?s)) with (String "-"%char (strip_commas s)).
      rewrite Hstrip. reflexivity.
    + exact Hstrip.
  - assert (Hlen : String.length (string_of_list_ascii (rev (group3 (rev digits))))
                   = (String.length (str_of_N (Z.abs_N z))
                      + (String.length (str_of_N (Z.abs_N z)) - 1) / 3)%nat).
    { rewrite string_list_length, length_rev, Hlength, length_rev.
      unfold digits. rewrite list_string_length. reflexivity. }
    destruct (z <? 0); simpl sign_str.
    + change (String.length ("-" +:+ ?s)) with (S (String.length s)).
      rewrite Hlen. reflexivity.
    + exact Hlen.
Qed.

(** *** The company part *)

Lemma company_information_log (ticker_input : string) (info : gmap string value) :
  fst (company_information ticker_input info) =
  ([StSubheader "Company Information";
    StMarkdown (Lit "### " :: str_value (dict_get info "longName" (VStr ticker_input)))]
   ++ (if dict_in_and_truthy "sector" info
       then [StMarkdown (Lit "**Sector:** "
                           :: str_value (dict_get info "sector" (VStr "N/A")))]
       else [])
   ++ (if dict_in_and_truthy "industry" info
       then [StMarkdown (Lit "**Industry:** "
                           :: str_value (dict_get info "industry" (VStr "N/A")))]
       else [])
   ++ (if dict_in_and_truthy "website" info
       then [StMarkdown (Lit "**Website:** ["
                           :: str_value (dict_get info "website" (VStr "N/A"))
                           ++ [Lit "]("]
                           ++ str_value (dict_get info "website" (VStr "#"))
                           ++ [Lit ")"])]
       else [])
   ++ (if dict_in_and_truthy "longBusinessSummary" info
       then [StMarkdown [Lit "**Business Summary:**"];
             StMarkdown ([Lit "<div style='height: 100px; overflow-y: auto;'>"]
                           ++ str_value (dict_get info "longBusinessSummary" (VStr "N/A"))
                           ++ [Lit "</div>"])]
       else [])
   ++ [StMarkdown [Lit "---"]])%list.
Proof.
  unfold company_information.
  destruct (dict_in_and_truthy "sector" info),
           (dict_in_and_truthy "industry" info),
           (dict_in_and_truthy "website" info),
           (dict_in_and_truthy "longBusinessSummary" info); reflexivity.
Qed.

(** X15: the company part never raises, whatever the profile holds; it names
    the company by [longName], or by the ticker symbol when that key is
    missing; and each optional field (sector, industry, website, business
    summary) gets its line exactly when the key is present with a truthy
    value: a missing key, [None], an empty string or a zero shows nothing. *)
Theorem company_information_shows_truthy_fields (ticker_input : string)
    (info : gmap string value) :
  snd (company_information ticker_input info)
  = Ok (dict_get info "longName" (VStr ticker_input)) /\
  (info !! "longName" = None ->
   In (StMarkdown [Lit "### "; Lit ticker_input])
      (fst (company_information ticker_input info))) /\
  (forall key label, In (key, label) company_fields ->
     (exists t, In (StMarkdown (Lit label :: t))
                   (fst (company_information ticker_input info)))
     <-> dict_in_and_truthy key info = true).
Proof.
  split; [apply company_information_outcome|].
  rewrite company_information_log. split.
  - intros Hname. unfold dict_get at 1. rewrite Hname. simpl. tauto.
  - intros key label Hfield. simpl in Hfield.
    destruct (dict_in_and_truthy "sector" info) eqn:Hsector,
             (dict_in_and_truthy "industry" info) eqn:Hindustry,
             (dict_in_and_truthy "website" info) eqn:Hwebsite,
             (dict_in_and_truthy "longBusinessSummary" info) eqn:Hsummary;
      repeat (destruct Hfield as [[= <- <-]|Hfield]); try contradiction;
      (split;
       [ intros [t Hin]; simpl in Hin;
         repeat (destruct Hin as [Hin|Hin]; [try discriminate Hin|]);
         try contradiction; first [assumption | reflexivity]
       | intros Hshown; try discriminate Hshown; try congruence;
         eexists; simpl; eauto 10 ]).
Qed.

Lemma company_information_shows_truthy_fields_witness :
  ~ exists t,
      In (StMarkdown (Lit "**Sector:** " :: t))
         (fst (company_information "AAPL" (<["sector" := VStr ""]> ∅))).
Proof.
  destruct (company_information_shows_truthy_fields "AAPL" (<["sector" := VStr ""]> ∅))
    as (_ & _ & Hfields).
  intros Hshown.
  apply (Hfields "sector" "**Sector:** ") in Hshown; [discriminate Hshown|].
  simpl. tauto.
Defined.

(** *** When the delta is omitted *)

(** X16: the delta of the current price is omitted exactly when the profile
    has no [previousClose] key; with the key present the expression either
    gives a string that ends with a percent sign or raises. *)
Theorem price_delta_omitted_iff_missing (current_price : value)
    (info : gmap string value) :
  (price_delta current_price info = Ok None <-> info !! "previousClose" = None) /\
  (forall delta, price_delta current_price info = Ok (Some delta) ->
     exists digits, delta = digits +:+ "%").
Proof.
  unfold price_delta. destruct (info !! "previousClose") as [previous|] eqn:Hprevious.
  - destruct (dict_read info "previousClose" previous current_price Hprevious)
      as [-> ->].
    destruct (truediv current_price previous) as [q|e]; cbn [rbind].
    + split; [split; discriminate|]. intros delta [= <-]. eauto.
    + split; [split; discriminate|]. discriminate.
  - destruct (dict_absent info "previousClose" current_price Hprevious) as (-> & _).
    split; [split; reflexivity|]. discriminate.
Qed.

Lemma price_delta_omitted_iff_missing_witness :
  exists digits, "1.00%" = digits +:+ "%".
Proof.
  destruct (price_delta_omitted_iff_missing (VInt 101) Stub.profile) as [_ Hdelta].
  apply Hdelta. vm_compute. reflexivity.
Defined.
